(** * Lesson booking backend: a shallow embedding of [server.js] and
      [scripts/seed.js], and the properties of its routes.

    The development has four layers.

    - [JS]: the fragment of JavaScript the handlers rely on: values as
      [express.json()] produces them, truthiness, [ToString], [trim],
      [toLowerCase], [Number], [parseInt], [isNaN], property access.
    - [Mongo]: the document store as the handlers use it: collections are
      lists of documents in insertion order, a document is a finite map from
      field names to stored values, and the driver calls are [find],
      [updateOne], [insertOne], [deleteMany], [insertMany].
    - [Server]: one function per route of [server.js].
    - [Seed]: the script [scripts/seed.js].

    Conventions of the model.

    - A character of a [string] stands for one UTF-16 code unit below 256,
      so [String.length] is the [.length] of the JavaScript string.
    - A finite number [Fin m e] denotes the decimal [m * 10^e]; every
      binary64 value is such a decimal.  The numbers of a request body are
      the ones [JSON.parse] made; the numbers the handlers make from text
      ([Number], [parseInt]) are rounded to the nearest binary64
      ([to_double]).
    - The driver is external to the repository.  A call either completes or
      throws; which of the two happens is an input of the model ([link]).
      Patches are applied field by field ([$set] on top-level names). *)

From Stdlib Require Import ZArith NArith String Ascii List Bool Lia DecimalString.
From Stdlib Require DecimalFacts DecimalPos DecimalN.
From stdpp Require Import gmap strings list fin_maps.

#[local] Open Scope Z_scope.
#[local] Set Warnings "-register-all".

(* ================================================================== *)
(** * JavaScript values and built-ins                                   *)
(* ================================================================== *)

Module JS.

(** ** Characters *)

Definition code (c : ascii) : N := N_of_ascii c.

Definition between (lo hi : N) (c : ascii) : bool :=
  ((lo <=? code c) && (code c <=? hi))%N.

Definition is_digit (c : ascii) : bool := between 48 57 c.

(** WhiteSpace and LineTerminator code units below 256: TAB, LF, VT, FF, CR,
    SP and NBSP. *)
Definition is_space (c : ascii) : bool :=
  between 9 13 c || (code c =? 32)%N || (code c =? 160)%N.

(** [String.prototype.toLowerCase] on one code unit: A-Z, and the Latin-1
    capitals U+00C0..U+00DE without the multiplication sign U+00D7. *)
Definition lower_char (c : ascii) : ascii :=
  if between 65 90 c || (between 192 222 c && negb (code c =? 215)%N)
  then ascii_of_N (code c + 32)
  else c.

Fixpoint toLowerCase (s : string) : string :=
  match s with
  | EmptyString => EmptyString
  | String c r => String (lower_char c) (toLowerCase r)
  end.

(** ** [String.prototype.trim] *)

Fixpoint trimStart (s : string) : string :=
  match s with
  | EmptyString => EmptyString
  | String c r => if is_space c then trimStart r else s
  end.

Fixpoint trimEnd (s : string) : string :=
  match s with
  | EmptyString => EmptyString
  | String c r =>
      match trimEnd r with
      | EmptyString => if is_space c then EmptyString else String c EmptyString
      | r' => String c r'
      end
  end.

Definition trim (s : string) : string := trimEnd (trimStart s).

(** ** Numbers *)

Inductive number :=
| NaN
| Inf (negative : bool)
| Fin (m : Z) (e : Z).

Definition isNaN (n : number) : bool :=
  match n with NaN => true | _ => false end.

(** Numeric comparison of two decimals, after aligning the exponents. *)
Definition align (m1 e1 m2 e2 : Z) : Z * Z :=
  let lo := Z.min e1 e2 in (m1 * 10 ^ (e1 - lo), m2 * 10 ^ (e2 - lo)).

Definition num_eqb (a b : number) : bool :=
  match a, b with
  | Fin m1 e1, Fin m2 e2 => let '(x, y) := align m1 e1 m2 e2 in x =? y
  | Inf s1, Inf s2 => Bool.eqb s1 s2
  | _, _ => false
  end.

(** [a < b] on numbers; false as soon as one side is NaN. *)
Definition num_ltb (a b : number) : bool :=
  match a, b with
  | NaN, _ | _, NaN => false
  | Inf true, Inf true => false
  | Inf true, _ => true
  | _, Inf true => false
  | Inf false, _ => false
  | _, Inf false => true
  | Fin m1 e1, Fin m2 e2 => let '(x, y) := align m1 e1 m2 e2 in x <? y
  end.

Definition of_Z (z : Z) : number := Fin z 0.
Definition of_nat (n : nat) : number := Fin (Z.of_nat n) 0.

(** ** Rounding to binary64 *)

(** [n / d] rounded to the nearest integer, a tie going to the even one;
    meant for [0 <= n] and [0 < d]. *)
Definition div_half_even (n d : Z) : Z :=
  let q := n / d in
  match 2 * (n mod d) ?= d with
  | Lt => q
  | Gt => q + 1
  | Eq => if Z.even q then q else q + 1
  end.

(** The integer part of the binary logarithm of [n / d], for [0 < n] and
    [0 < d]. *)
Definition log2_ratio (n d : Z) : Z :=
  let g := Z.log2 n - Z.log2 d in
  if (if 0 <=? g then d * 2 ^ g <=? n else d <=? n * 2 ^ (- g))
  then g else g - 1.

(** The Number value of the real [m * 10^e]: the nearest binary64, a tie
    going to the even significand.  The unit in the last place is [2^E],
    with 53 significant bits above the subnormal range and [E = -1074] in
    it; what rounds to [2^1024] or more is an infinity, what rounds to
    nothing is zero. *)
Definition to_double (m e : Z) : number :=
  if m =? 0 then Fin 0 0
  else
    let neg := m <? 0 in
    let a := Z.abs m in
    let '(n, d) := if 0 <=? e then (a * 10 ^ e, 1) else (a, 10 ^ (- e)) in
    let E := Z.max (log2_ratio n d - 52) (-1074) in
    if 0 <=? E then
      let v := div_half_even n (d * 2 ^ E) * 2 ^ E in
      if 2 ^ 1024 <=? v then Inf neg else Fin (if neg then - v else v) 0
    else
      let M := div_half_even (n * 2 ^ (- E)) d in
      let s := if neg then - M else M in
      if M mod 2 ^ (- E) =? 0 then Fin (s / 2 ^ (- E)) 0
      else Fin (s * 5 ^ (- E)) E.

(** ** Decimal digits *)

Definition digit_val (c : ascii) : Z := Z.of_N (code c) - 48.

(** Value of a string of digits in base [b], most significant first. *)
Fixpoint digits_val (b : Z) (val : ascii -> Z) (acc : Z) (s : string) : Z :=
  match s with
  | EmptyString => acc
  | String c r => digits_val b val (b * acc + val c) r
  end.

(** Longest prefix of characters satisfying [p], and the rest. *)
Fixpoint span (p : ascii -> bool) (s : string) : string * string :=
  match s with
  | EmptyString => (EmptyString, EmptyString)
  | String c r =>
      if p c then let '(a, b) := span p r in (String c a, b)
      else (EmptyString, s)
  end.

Definition is_empty (s : string) : bool :=
  match s with EmptyString => true | _ => false end.

(** ** [Number(string)]: the StringNumericLiteral grammar, and the
    rounding of the value it denotes *)

Definition hex_val (c : ascii) : Z :=
  if is_digit c then digit_val c
  else if between 97 102 c then Z.of_N (code c) - 87
  else Z.of_N (code c) - 55.

Definition is_hex (c : ascii) : bool :=
  is_digit c || between 97 102 c || between 65 70 c.
Definition is_oct (c : ascii) : bool := between 48 55 c.
Definition is_bin (c : ascii) : bool := between 48 49 c.

Definition radix_literal (b : Z) (p : ascii -> bool) (val : ascii -> Z)
    (s : string) : number :=
  if negb (is_empty s) && forallb p (list_ascii_of_string s)
  then to_double (digits_val b val 0 s) 0
  else NaN.

(** ExponentPart after the [e]: an optional sign and at least one digit,
    up to the end of the string. *)
Definition exponent (s : string) : option Z :=
  let '(neg, ds) :=
    match s with
    | String "+" r => (false, r)
    | String "-" r => (true, r)
    | _ => (false, s)
    end in
  if negb (is_empty ds) && forallb is_digit (list_ascii_of_string ds)
  then Some (if neg then - digits_val 10 digit_val 0 ds
             else digits_val 10 digit_val 0 ds)
  else None.

(** StrUnsignedDecimalLiteral without [Infinity]. *)
Definition unsigned_decimal (s : string) : option (Z * Z) :=
  let '(ip, r1) := span is_digit s in
  let '(fp, r2) :=
    match r1 with
    | String "." r => span is_digit r
    | _ => (EmptyString, r1)
    end in
  if is_empty ip && is_empty fp then None
  else
    let m := digits_val 10 digit_val 0 (ip +:+ fp) in
    let e := - Z.of_nat (String.length fp) in
    match r2 with
    | EmptyString => Some (m, e)
    | String c r3 =>
        if (code c =? 101)%N || (code c =? 69)%N
        then match exponent r3 with
             | Some x => Some (m, e + x)
             | None => None
             end
        else None
    end.

Definition signed_decimal (s : string) : number :=
  let '(neg, u) :=
    match s with
    | String "+" r => (false, r)
    | String "-" r => (true, r)
    | _ => (false, s)
    end in
  if String.eqb u "Infinity" then Inf neg
  else match unsigned_decimal u with
       | Some (m, e) => to_double (if neg then - m else m) e
       | None => NaN
       end.

Definition Number_of_string (s : string) : number :=
  match trim s with
  | EmptyString => Fin 0 0
  | String "0" (String "x" r) | String "0" (String "X" r) =>
      radix_literal 16 is_hex hex_val r
  | String "0" (String "o" r) | String "0" (String "O" r) =>
      radix_literal 8 is_oct digit_val r
  | String "0" (String "b" r) | String "0" (String "B" r) =>
      radix_literal 2 is_bin digit_val r
  | t => signed_decimal t
  end.

(** ** [parseInt(string, 10)]: the leading digits, rounded *)

Definition parseInt10 (s : string) : number :=
  let t := trimStart s in
  let '(neg, u) :=
    match t with
    | String "+" r => (false, r)
    | String "-" r => (true, r)
    | _ => (false, t)
    end in
  let '(ds, _) := span is_digit u in
  if is_empty ds then NaN
  else let v := digits_val 10 digit_val 0 ds in
       to_double (if neg then - v else v) 0.

(** ** [Number.prototype.toString] in radix 10 *)

(** Drop the trailing zeros of a positive mantissa, raising the exponent. *)
Fixpoint strip_zeros (fuel : nat) (m e : Z) : Z * Z :=
  match fuel with
  | O => (m, e)
  | S f => if (m mod 10 =? 0) && negb (m =? 0)
           then strip_zeros f (m / 10) (e + 1)
           else (m, e)
  end.

Definition digits_of (m : Z) : string :=
  NilZero.string_of_uint (N.to_uint (Z.to_N m)).

Fixpoint zeros (n : nat) : string :=
  match n with O => EmptyString | S k => String "0" (zeros k) end.

Fixpoint take (n : nat) (s : string) : string :=
  match n, s with
  | S k, String c r => String c (take k r)
  | _, _ => EmptyString
  end.

Fixpoint drop (n : nat) (s : string) : string :=
  match n, s with
  | S k, String c r => drop k r
  | _, _ => s
  end.

(** The positive case of Number::toString: [s] has [k] digits and the value
    is [s * 10^(n-k)]. *)
Definition positive_toString (m e : Z) : string :=
  let '(s, e') := strip_zeros (S (Z.to_nat (Z.log2 m))) m e in
  let ds := digits_of s in
  let k := Z.of_nat (String.length ds) in
  let n := k + e' in
  if (k <=? n) && (n <=? 21) then ds +:+ zeros (Z.to_nat (n - k))
  else if (0 <? n) && (n <=? 21)
  then take (Z.to_nat n) ds +:+ "." +:+ drop (Z.to_nat n) ds
  else if (-6 <? n) && (n <=? 0)
  then "0." +:+ zeros (Z.to_nat (- n)) +:+ ds
  else
    let x := n - 1 in
    let ex := (if x <? 0 then "e-" else "e+") +:+ digits_of (Z.abs x) in
    if k =? 1 then ds +:+ ex
    else take 1 ds +:+ "." +:+ drop 1 ds +:+ ex.

Definition Number_toString (n : number) : string :=
  match n with
  | NaN => "NaN"
  | Inf false => "Infinity"
  | Inf true => "-Infinity"
  | Fin m e =>
      if m =? 0 then "0"
      else if m <? 0 then "-" +:+ positive_toString (- m) e
      else positive_toString m e
  end.

(** ** Values *)

(** What [express.json()] and the query-string parser hand to a handler,
    with [undefined] for an absent property. *)
Inductive value :=
| VUndef
| VNull
| VBool (b : bool)
| VNum (n : number)
| VStr (s : string)
| VArr (l : list value)
| VObj (m : gmap string value).

(** ToBoolean. *)
Definition truthy (v : value) : bool :=
  match v with
  | VUndef | VNull => false
  | VBool b => b
  | VNum NaN => false
  | VNum (Inf _) => true
  | VNum (Fin m _) => negb (m =? 0)
  | VStr s => negb (is_empty s)
  | VArr _ | VObj _ => true
  end.

(** A computation that may throw. *)
Inductive outcome (A : Type) :=
| Done (a : A)
| Thrown.
Arguments Done {A} a.
Arguments Thrown {A}.

(** ToString.  An array is joined with commas, [null] and [undefined]
    elements giving the empty string.  An object goes through ToPrimitive:
    a property [toString] of its own (never callable, coming from JSON)
    hides [Object.prototype.toString], [valueOf] gives no primitive, and
    the conversion throws a TypeError; otherwise the result is
    [[object Object]]. *)
Fixpoint ToString (v : value) : outcome string :=
  match v with
  | VUndef => Done "undefined"
  | VNull => Done "null"
  | VBool true => Done "true"
  | VBool false => Done "false"
  | VNum n => Done (Number_toString n)
  | VStr s => Done s
  | VArr l =>
      (fix join (l : list value) : outcome string :=
         match l with
         | [] => Done EmptyString
         | x :: r =>
             match match x with
                   | VUndef | VNull => Done EmptyString
                   | _ => ToString x
                   end with
             | Thrown => Thrown
             | Done sx =>
                 match r with
                 | [] => Done sx
                 | _ => match join r with
                        | Thrown => Thrown
                        | Done sr => Done (sx +:+ "," +:+ sr)
                        end
                 end
             end
         end) l
  | VObj m =>
      if bool_decide (is_Some (m !! "toString")) then Thrown
      else Done "[object Object]"
  end.

(** ToNumber; an array or an object is first made a string as above (for
    an object [valueOf] is tried first and gives no primitive). *)
Definition ToNumber (v : value) : outcome number :=
  match v with
  | VUndef => Done NaN
  | VNull => Done (Fin 0 0)
  | VBool true => Done (Fin 1 0)
  | VBool false => Done (Fin 0 0)
  | VNum n => Done n
  | VStr s => Done (Number_of_string s)
  | VArr _ | VObj _ =>
      match ToString v with
      | Done s => Done (Number_of_string s)
      | Thrown => Thrown
      end
  end.

(** [Array.isArray]. *)
Definition isArray (v : value) : bool :=
  match v with VArr _ => true | _ => false end.

(** [v[k]] for the property names the handlers read ([name], [phone],
    [items], [total] on the body; [length] on [phone] and [items]).
    Reading a property of [undefined] or [null] throws a TypeError. *)
Definition get (v : value) (k : string) : outcome value :=
  match v with
  | VUndef | VNull => Thrown
  | VObj m => Done (default VUndef (m !! k))
  | VStr s => Done (if String.eqb k "length"
                    then VNum (of_nat (String.length s)) else VUndef)
  | VArr l => Done (if String.eqb k "length"
                    then VNum (of_nat (length l)) else VUndef)
  | VBool _ | VNum _ => Done VUndef
  end.

(** [a < b] where [b] is a number: [a] is converted with ToNumber (a
    string against a number is compared numerically). *)
Definition lt_number (a : value) (b : number) : outcome bool :=
  match ToNumber a with
  | Done x => Done (num_ltb x b)
  | Thrown => Thrown
  end.

(** [a === 0] for the two counters the handlers compare with zero. *)
Definition is_zero (a : value) : bool :=
  match a with
  | VNum n => num_eqb n (Fin 0 0)
  | _ => false
  end.

(** [/^[0-9]+$/] on a string; without the [m] flag [$] only matches at the
    very end. *)
Definition digits_only (s : string) : bool :=
  negb (is_empty s) && forallb is_digit (list_ascii_of_string s).

(** [/^[0-9]+$/.test(v)]: the argument is converted with ToString, which
    may throw. *)
Definition digits_only_test (v : value) : outcome bool :=
  match ToString v with
  | Done s => Done (digits_only s)
  | Thrown => Thrown
  end.

End JS.

Import JS.

(* ================================================================== *)
(** * The document store                                                *)
(* ================================================================== *)

Module Mongo.

(** The fragment of the store that is modelled.

    - [find] returns the matching documents in insertion order.
    - An equality clause [{ field: n }] selects the documents whose field is
      a number equal to [n], and a [$regex] clause those whose field is a
      string the pattern matches; a field that is an array is selected when
      one of its elements is.
    - [$set] takes plain top-level field names ([set_operand]); an empty
      patch is accepted and changes nothing, as servers since 5.0 do. *)

(** A stored field: a value that came in as JSON, a [Date], or an
    [ObjectId] (a counter stands for the generated identifier). *)
Inductive stored :=
| SVal (v : value)
| SDate (ms : Z)
| SOid (n : N).

Abbreviation doc := (gmap string stored).

(** Whether the driver call of a request completes or throws. *)
Inductive link := Up | Down.

(** ** Regular expressions

    [$regex] hands the pattern to the server's PCRE engine, which runs in
    UTF mode with Unicode case folding.  Modelled patterns are sequences of
    literal characters and [.]; a pattern with any other metacharacter or a
    NUL is outside the fragment and [compile] gives [None] for it.  A
    closing bracket or brace on its own is a literal. *)

Inductive atom :=
| Lit (c : ascii)
| Dot.

(** The PCRE metacharacters outside a class: \ ^ $ . [ | ( ) ? * + { *)
Definition is_meta (c : ascii) : bool :=
  existsb (N.eqb (code c))
    [92; 94; 36; 46; 91; 124; 40; 41; 63; 42; 43; 123]%N.

Definition compile_char (c : ascii) : option atom :=
  if (code c =? 46)%N then Some Dot
  else if is_meta c || (code c =? 0)%N then None
  else Some (Lit c).

Fixpoint compile (p : string) : option (list atom) :=
  match p with
  | EmptyString => Some []
  | String c r =>
      match compile_char c, compile r with
      | Some a, Some re => Some (a :: re)
      | _, _ => None
      end
  end.

(** One atom against one character under the [i] option: two characters
    below 256 are the same letter when [toLowerCase] makes them equal; [.]
    matches everything but a line feed. *)
Definition atom_match (a : atom) (c : ascii) : bool :=
  match a with
  | Lit x => Ascii.eqb (lower_char x) (lower_char c)
  | Dot => negb (code c =? 10)%N
  end.

Fixpoint match_here (re : list atom) (s : string) : bool :=
  match re, s with
  | [], _ => true
  | a :: re', String c r => atom_match a c && match_here re' r
  | _ :: _, EmptyString => false
  end.

(** An unanchored pattern is tried at every offset. *)
Fixpoint search (re : list atom) (s : string) : bool :=
  match_here re s ||
  match s with
  | EmptyString => false
  | String _ r => search re r
  end.

(** ** Filters *)

Inductive filter :=
| FAll                                    (* {} *)
| FEq (field : string) (n : number)       (* { field: n } *)
| FRegexI (field : string) (re : list atom)
                                          (* { field: { $regex, $options: "i" } } *)
| FOr (qs : list filter).                 (* { $or: [ ... ] } *)

(** A value against a number: the value is that number. *)
Definition is_number (n : number) (v : value) : bool :=
  match v with
  | VNum x => num_eqb x n
  | _ => false
  end.

(** A value against a pattern: the value is a string the pattern matches. *)
Definition is_match (re : list atom) (v : value) : bool :=
  match v with
  | VStr s => search re s
  | _ => false
  end.

(** A stored field against a test on values: the field passes the test,
    or it is an array and one of its elements passes it. *)
Definition field_passes (test : value → bool) (f : option stored) : bool :=
  match f with
  | Some (SVal (VArr l)) => existsb test l
  | Some (SVal v) => test v
  | _ => false
  end.

Fixpoint matches (q : filter) (d : doc) : bool :=
  match q with
  | FAll => true
  | FEq f n => field_passes (is_number n) (d !! f)
  | FRegexI f re => field_passes (is_match re) (d !! f)
  | FOr qs =>
      (fix any (qs : list filter) : bool :=
         match qs with
         | [] => false
         | q :: r => matches q d || any r
         end) qs
  end.

(** ** Driver calls *)

(** [collection.find(q).toArray()] *)
Definition find (l : link) (q : filter) (c : list doc) : outcome (list doc) :=
  match l with
  | Up => Done (List.filter (matches q) c)
  | Down => Thrown
  end.

(** [$set]: every field of the patch replaces or adds the field of that
    name; the other fields stay. *)
Definition set_fields (patch : gmap string value) (d : doc) : doc :=
  (SVal <$> patch) ∪ d.

Fixpoint update_first (q : filter) (patch : gmap string value)
    (c : list doc) : option (list doc) :=
  match c with
  | [] => None
  | d :: r =>
      if matches q d then Some (set_fields patch d :: r)
      else cons d <$> update_first q patch r
  end.

(** [collection.updateOne(q, { $set: patch })]: the first document that
    matches is patched; the result carries [matchedCount]. *)
Definition updateOne (l : link) (q : filter) (patch : gmap string value)
    (c : list doc) : outcome (number * list doc) :=
  match l with
  | Down => Thrown
  | Up =>
      match update_first q patch c with
      | Some c' => Done (Fin 1 0, c')
      | None => Done (Fin 0 0, c)
      end
  end.

(** The field names [$set] takes as plain top-level names.  [_id] is
    immutable, a dot makes a path into a sub-document, and the empty name
    and [$] names are refused or special: all outside the fragment. *)
Definition plain_name (k : string) : bool :=
  match k with
  | EmptyString => false
  | String c _ =>
      negb (code c =? 36)%N
      && negb (String.eqb k "_id")
      && forallb (fun x => negb (code x =? 46)%N) (list_ascii_of_string k)
  end.

Definition set_operand (v : value) : option (gmap string value) :=
  match v with
  | VObj m =>
      if forallb plain_name (fst <$> map_to_list m) then Some m else None
  | _ => None
  end.

(** [collection.insertOne(d)]: the driver adds a fresh [_id] to a document
    that has none (neither call site builds one) and returns it. *)
Definition insertOne (l : link) (d : doc) (c : list doc) (oid : N)
    : outcome (stored * list doc) :=
  match l with
  | Down => Thrown
  | Up => Done (SOid oid, c ++ [<["_id" := SOid oid]> d])
  end.

(** For the calls that write several documents, [None] is a call that
    completes and [Some k] one that throws after [k] documents. *)
Definition fault := option nat.

Definition deleteMany_all (f : fault) (c : list doc) : bool * list doc :=
  match f with
  | None => (true, [])
  | Some k => (false, List.skipn k c)
  end.

Fixpoint with_ids (oid : N) (ds : list (gmap string value)) : list doc :=
  match ds with
  | [] => []
  | d :: r => <["_id" := SOid oid]> (SVal <$> d) :: with_ids (N.succ oid) r
  end.

Definition insertMany (f : fault) (ds : list (gmap string value))
    (c : list doc) (oid : N) : bool * list doc :=
  match f with
  | None => (true, c ++ with_ids oid ds)
  | Some k => (false, c ++ with_ids oid (List.firstn k ds))
  end.

(** ** The database

    The two collections of [lesson_app], the identifier generator, and a
    trace of the driver calls made so far (most recent first). *)

Inductive call :=
| Find (coll : string)
| UpdateOne (coll : string)
| InsertOne (coll : string)
| DeleteMany (coll : string)
| InsertMany (coll : string).

Record world := World {
  lessons : list doc;
  orders : list doc;
  next_oid : N;
  calls : list call
}.

Definition called (k : call) (w : world) : world :=
  World (lessons w) (orders w) (next_oid w) (k :: calls w).

Definition with_lessons (ls : list doc) (w : world) : world :=
  World ls (orders w) (next_oid w) (calls w).

Definition with_orders (os : list doc) (w : world) : world :=
  World (lessons w) os (next_oid w) (calls w).

Definition with_next_oid (n : N) (w : world) : world :=
  World (lessons w) (orders w) n (calls w).

End Mongo.

Import Mongo.

(* ================================================================== *)
(** * server.js                                                         *)
(* ================================================================== *)

Module Server.

Definition LESSONS_COLLECTION : string := "lessons".
Definition ORDERS_COLLECTION : string := "orders".

Inductive body :=
| BError (error : string)                      (* { error } *)
| BMessage (message : string)                  (* { message } *)
| BSaved (message : string) (orderId : stored) (* { message, orderId } *)
| BDocs (ds : list doc).                       (* an array of documents *)

(** What a handler does with [res]: it sends a status and a JSON body, or
    its promise rejects before anything is sent. *)
Inductive response :=
| Reply (status : nat) (b : body)
| Rejected.

(** [GET /lessons] *)
Definition getLessons (l : link) (w : world) : response * world :=
  let w := called (Find LESSONS_COLLECTION) w in
  match find l FAll (lessons w) with
  | Done ls => (Reply 200 (BDocs ls), w)
  | Thrown => (Reply 500 (BError "Failed to fetch lessons"), w)
  end.

(** The filter of [GET /search]: [lowerTerm] as a pattern on [subject] and
    [location], and the two numeric clauses when [isNumeric]. *)
Definition search_query (re : list atom) (numTerm : number) : filter :=
  let isNumeric := negb (isNaN numTerm) in
  FOr ([FRegexI "subject" re; FRegexI "location" re]
       ++ (if isNumeric then [FEq "price" numTerm; FEq "spaces" numTerm]
           else [])).

(** [GET /search?q=term].  [q] is [req.query.q].  The result is [None] when
    the term is a pattern outside the modelled fragment. *)
Definition getSearch (l : link) (q : value) (w : world)
    : option (response * world) :=
  match (if truthy q then q else VStr "") with
  | VStr s =>
      let term := trim s in
      if negb (truthy (VStr term)) then
        (* this [find] is not inside a [try] *)
        let w := called (Find LESSONS_COLLECTION) w in
        match find l FAll (lessons w) with
        | Done all => Some (Reply 200 (BDocs all), w)
        | Thrown => Some (Rejected, w)
        end
      else
        let lowerTerm := toLowerCase term in
        let numTerm := Number_of_string term in
        re ← compile lowerTerm;
        let w := called (Find LESSONS_COLLECTION) w in
        match find l (search_query re numTerm) (lessons w) with
        | Done results => Some (Reply 200 (BDocs results), w)
        | Thrown => Some (Reply 500 (BError "Search failed"), w)
        end
  | _ =>
      (* [.trim] is not a function of an array, an object or a number *)
      Some (Rejected, w)
  end.

(** [const updateData = req.body || {}] *)
Definition updateData (reqBody : value) : value :=
  if truthy reqBody then reqBody else VObj ∅.

(** [PUT /lessons/:id].  The result is [None] when the body is not a
    [$set] operand of the modelled fragment. *)
Definition putLesson (l : link) (idParam : string) (reqBody : value)
    (w : world) : option (response * world) :=
  let lessonId := parseInt10 idParam in
  if isNaN lessonId then
    Some (Reply 400 (BError "Lesson id must be a number"), w)
  else
    patch ← set_operand (updateData reqBody);
    let w := called (UpdateOne LESSONS_COLLECTION) w in
    match updateOne l (FEq "id" lessonId) patch (lessons w) with
    | Done (matchedCount, ls) =>
        if is_zero (VNum matchedCount)
        then Some (Reply 404 (BError "Lesson not found"), w)
        else Some (Reply 200 (BMessage "Lesson updated"), with_lessons ls w)
    | Thrown => Some (Reply 500 (BError "Failed to update lesson"), w)
    end.

(** [const { name, phone, items, total } = req.body] *)
Definition destructure (reqBody : value)
    : outcome (value * value * value * value) :=
  match get reqBody "name", get reqBody "phone",
        get reqBody "items", get reqBody "total" with
  | Done name, Done phone, Done items, Done total =>
      Done (name, phone, items, total)
  | _, _, _, _ => Thrown
  end.

Definition orderDoc (name phone items total : value) (now : Z) : doc :=
  <["name" := SVal name]>
  (<["phone" := SVal phone]>
  (<["items" := SVal items]>
  (<["total" := SVal (if truthy total then total else VNum (Fin 0 0))]>
  (<["createdAt" := SDate now]> ∅)))).

Definition missing : response :=
  Reply 400 (BError "Missing name, phone, or items.").

Definition bad_phone : response :=
  Reply 400
    (BError "Phone number must be at least 8 digits and contain only numbers.").

(** [handleCreateOrder]; [now] is the clock read by [new Date()]. *)
Definition handleCreateOrder (l : link) (now : Z) (reqBody : value)
    (w : world) : response * world :=
  match destructure reqBody with
  | Thrown => (Rejected, w)
  | Done (name, phone, items, total) =>
      if negb (truthy name) || negb (truthy phone) || negb (isArray items)
      then (missing, w)
      else
        match get items "length" with
        | Thrown => (Rejected, w)
        | Done n =>
            if is_zero n then (missing, w)
            else
              (* the test and the comparison stand outside the [try] *)
              match digits_only_test phone with
              | Thrown => (Rejected, w)
              | Done phoneDigitsOnly =>
                  if negb phoneDigitsOnly then (bad_phone, w)
                  else
                    match get phone "length" with
                    | Thrown => (Rejected, w)
                    | Done len =>
                        match lt_number len (Fin 8 0) with
                        | Thrown => (Rejected, w)
                        | Done true => (bad_phone, w)
                        | Done false =>
                            let d := orderDoc name phone items total now in
                            let w := called (InsertOne ORDERS_COLLECTION) w in
                            match insertOne l d (orders w) (next_oid w) with
                            | Done (insertedId, os) =>
                                (Reply 201 (BSaved "Order saved" insertedId),
                                 with_next_oid (N.succ (next_oid w))
                                   (with_orders os w))
                            | Thrown =>
                                (Reply 500 (BError "Failed to save order"), w)
                            end
                        end
                    end
              end
        end
  end.

(** [app.post("/orders", handleCreateOrder)] and its alias
    [app.post("/order", handleCreateOrder)]. *)
Definition post_orders := handleCreateOrder.
Definition post_order := handleCreateOrder.

(** [GET /orders] *)
Definition getOrders (l : link) (w : world) : response * world :=
  let w := called (Find ORDERS_COLLECTION) w in
  match find l FAll (orders w) with
  | Done os => (Reply 200 (BDocs os), w)
  | Thrown => (Reply 500 (BError "Failed to fetch orders"), w)
  end.

End Server.

(* ================================================================== *)
(** * The earlier server.js                                             *)
(* ================================================================== *)

Module Legacy.

Import Server.

Definition missing : response :=
  Reply 400 (BError "Missing name, phone, or items in order.").

(** [handleCreateOrder] as it was before the phone check was added. *)
Definition handleCreateOrder (l : link) (now : Z) (reqBody : value)
    (w : world) : response * world :=
  match destructure reqBody with
  | Thrown => (Rejected, w)
  | Done (name, phone, items, total) =>
      if negb (truthy name) || negb (truthy phone) || negb (isArray items)
      then (missing, w)
      else
        match get items "length" with
        | Thrown => (Rejected, w)
        | Done n =>
            if is_zero n then (missing, w)
            else
              let d := orderDoc name phone items total now in
              let w := called (InsertOne ORDERS_COLLECTION) w in
              match insertOne l d (orders w) (next_oid w) with
              | Done (insertedId, os) =>
                  (Reply 201 (BSaved "Order saved" insertedId),
                   with_next_oid (N.succ (next_oid w)) (with_orders os w))
              | Thrown => (Reply 500 (BError "Failed to save order"), w)
              end
        end
  end.

End Legacy.

(* ================================================================== *)
(** * scripts/seed.js                                                   *)
(* ================================================================== *)

Module Seed.

Definition lesson (id : Z) (subject location : string) (price spaces : Z)
    (icon image : string) : gmap string value :=
  <["id" := VNum (Fin id 0)]>
  (<["subject" := VStr subject]>
  (<["location" := VStr location]>
  (<["price" := VNum (Fin price 0)]>
  (<["spaces" := VNum (Fin spaces 0)]>
  (<["icon" := VStr icon]>
  (<["image" := VStr image]> ∅)))))).

Definition catalog : list (gmap string value) :=
  [ lesson 1 "Mathematics" "Hendon" 100 5 "fa-solid fa-calculator"
      "https://img.icons8.com/color/240/calculator--v1.png";
    lesson 2 "English" "Colindale" 80 5 "fa-solid fa-book-open"
      "https://img.icons8.com/color/240/book-reading.png";
    lesson 3 "Biology" "Golders Green" 90 5 "fa-solid fa-seedling"
      "https://img.icons8.com/color/240/dna-helix.png";
    lesson 4 "Chemistry" "Brent Cross" 70 5 "fa-solid fa-flask"
      "https://img.icons8.com/color/240/test-tube.png";
    lesson 5 "History" "Hendon" 50 5 "fa-solid fa-landmark"
      "https://img.icons8.com/color/240/scroll.png";
    lesson 6 "Physics" "Colindale" 95 5 "fa-solid fa-atom"
      "https://img.icons8.com/color/240/physics.png";
    lesson 7 "Art" "Brent Cross" 60 5 "fa-solid fa-palette"
      "https://img.icons8.com/color/240/art-prices.png";
    lesson 8 "Geography" "Golders Green" 85 5 "fa-solid fa-earth-europe"
      "https://img.icons8.com/color/240/globe--v1.png";
    lesson 9 "Computer Science" "Hendon" 120 5 "fa-solid fa-code"
      "https://img.icons8.com/color/240/source-code.png";
    lesson 10 "Economics" "Colindale" 110 5 "fa-solid fa-chart-line"
      "https://img.icons8.com/color/240/economic-improvement.png" ].

(** How the client fares: [new MongoClient(uri)] throws on a connection
    string it cannot parse; or the client is built and [client.connect()]
    rejects because no server answers; or the connection is made. *)
Inductive client :=
| BadString
| Unreachable
| Connected.

(** What the script meets when it runs: [process.env.MONGODB_URI], the
    fate of the client, and how [deleteMany] and [insertMany] fare. *)
Record env := Env {
  MONGODB_URI : value;
  client_state : client;
  delete_fault : fault;
  insert_fault : fault
}.

(** [await client.connect()] completes. *)
Definition connects (e : env) : bool :=
  match client_state e with
  | Connected => true
  | _ => false
  end.

(** The body of the [try] block; an exception ends it where it is thrown
    and the [catch] only logs it. *)
Definition try_block (e : env) (w : world) : bool * world :=
  if negb (connects e) then (false, w)
  else
    let w := called (DeleteMany "lessons") w in
    let '(ok, ls) := deleteMany_all (delete_fault e) (lessons w) in
    let w := with_lessons ls w in
    if negb ok then (false, w)
    else
      let w := called (InsertMany "lessons") w in
      let '(ok, ls) := insertMany (insert_fault e) catalog (lessons w)
                         (next_oid w) in
      (ok, with_next_oid (next_oid w + N.of_nat (length catalog))
             (with_lessons ls w)).

(** [seed()]: the exit status of the process and the database it leaves.
    The missing connection string calls [process.exit(1)].  The client is
    built outside the [try]: when the constructor throws, the promise of
    [seed()] rejects with nobody to handle it and the process ends with
    status 1.  After the [try]/[catch]/[finally] the process ends on its
    own, with status 0. *)
Definition seed (e : env) (w : world) : Z * world :=
  if negb (truthy (MONGODB_URI e)) then (1, w)
  else
    match client_state e with
    | BadString => (1, w)
    | _ =>
        let '(_, w') := try_block e w in
        (0, w')
    end.

(** Whether the run met a failure: no connection string, no client or no
    connection, or a [deleteMany] or [insertMany] that threw. *)
Definition failed (e : env) : bool :=
  negb (truthy (MONGODB_URI e)) || negb (connects e)
  || bool_decide (is_Some (delete_fault e))
  || bool_decide (is_Some (insert_fault e)).

End Seed.

(* ================================================================== *)
(** * What the routes are expected to do                                *)
(* ================================================================== *)

Import Server Seed.

(** The outcome of an accepted submission: status 201 with the generated
    identifier, one document appended to [orders], nothing else touched. *)
Definition accepted (r : response * world) (w : world) (d : doc) : Prop :=
  r = (Reply 201 (BSaved "Order saved" (SOid (next_oid w))),
       World (lessons w) (orders w ++ [d]) (N.succ (next_oid w))
             (InsertOne "orders" :: calls w)).

(** A property that is absent, [null] or the empty string. *)
Definition missing_or_empty (v : value) : Prop :=
  v = VUndef ∨ v = VNull ∨ v = VStr EmptyString.

(** The validation rules of an order, each broken in one way; the two
    rules on the characters of the phone are read on a phone sent as a
    string. *)
Inductive violates (m : gmap string value) : Prop :=
| name_missing :
    missing_or_empty (default VUndef (m !! "name")) → violates m
| phone_missing :
    missing_or_empty (default VUndef (m !! "phone")) → violates m
| phone_not_digits (p : string) (c : ascii) :
    m !! "phone" = Some (VStr p) →
    In c (list_ascii_of_string p) → is_digit c = false → violates m
| phone_too_short (p : string) :
    m !! "phone" = Some (VStr p) → (String.length p < 8)%nat → violates m
| items_not_filled :
    (∀ x xs, m !! "items" ≠ Some (VArr (x :: xs))) → violates m.

(** The phone, as the pattern test reads it, has fewer than 8
    characters. *)
Definition shorter_than_8 (phone : value) : Prop :=
  ∃ p, ToString phone = Done p ∧ (String.length p < 8)%nat.

(** A sequence of submissions of one payload, each with its own link state
    and clock. *)
Definition resubmit (m : gmap string value) (attempts : list (link * Z))
    (w : world) : world :=
  fold_left (λ w a, snd (post_orders a.1 a.2 (VObj m) w)) attempts w.

(** The field is a number equal to [n]. *)
Definition equals_number (n : number) (f : option stored) : Prop :=
  ∃ x, f = Some (SVal (VNum x)) ∧ num_eqb x n = true.

(** The field is a number equal to [n], or an array that holds one. *)
Definition number_in (n : number) (f : option stored) : Prop :=
  equals_number n f
  ∨ ∃ l x, f = Some (SVal (VArr l)) ∧ VNum x ∈ l ∧ num_eqb x n = true.

(** The record answers to the business key [n]: its [id] is [n], or an
    array that holds [n]. *)
Definition has_id (n : number) (d : doc) : Prop := number_in n (d !! "id").

(** The [id] of the record equals [n]. *)
Definition id_equals (n : number) (d : doc) : Prop :=
  equals_number n (d !! "id").

(** An update leaves alone every record whose [id] does not equal the
    given integer. *)
Definition others_unchanged (idParam : string) (reqBody : value)
    (w : world) : Prop :=
  ∀ r w' i d,
    putLesson Up idParam reqBody w = Some (r, w') →
    lessons w !! i = Some d →
    ¬ id_equals (parseInt10 idParam) d →
    lessons w' !! i = Some d.

(** A stored document without its generated [_id], and a catalog record as
    it is stored. *)
Definition strip_id (d : doc) : doc := delete "_id" d.
Definition as_stored (d : gmap string value) : doc := SVal <$> d.









(** The pattern that reads every character of [s] literally. *)
Definition lits (s : string) : list atom := Lit <$> list_ascii_of_string s.

(** A database that holds the seeded catalog and no order. *)
Definition seeded : world := World (with_ids 0 catalog) [] 10 [].

(** ** Sample requests *)

Definition int (z : Z) : value := VNum (Fin z 0).

(** [{ name: "Ada", phone, items: [{ id: 1, quantity: 2 }], total: 250 }] *)
Definition order_with_phone (phone : value) : gmap string value :=
  <["name" := VStr "Ada"]>
  (<["phone" := phone]>
  (<["items" := VArr [VObj (<["id" := int 1]> {["quantity" := int 2]})]]>
  {["total" := int 250]})).

(** [{ spaces: 3 }] *)
Definition three_spaces : gmap string value := {["spaces" := int 3]}.

(** The database a request leaves, when the request is modelled. *)
Definition after (r : option (response * world)) (w : world) : world :=
  match r with
  | Some (_, w') => w'
  | None => w
  end.

(** The database after [PUT /lessons/3] with [{ spaces: 3 }] on the seeded
    one. *)
Definition seeded_then_patched : world :=
  match putLesson Up "3" (VObj three_spaces) seeded with
  | Some (_, w) => w
  | None => seeded
  end.

(** The seeded database after [PUT /lessons/1] with [{ id: [1, 42] }]. *)
Definition seeded_shared_id : world :=
  after (putLesson Up "1" (VObj {["id" := VArr [int 1; int 42]]}) seeded)
    seeded.


(** ** Vocabulary for the further properties *)

Definition status_of (r : response) : option nat :=
  match r with
  | Reply s _ => Some s
  | Rejected => None
  end.

(** [Array.isArray(items) && items.length !== 0] *)
Definition nonempty_array (v : value) : bool :=
  match v with
  | VArr (_ :: _) => true
  | _ => false
  end.

(** [!(phone.length < 8)], for a phone that passed the test (the read and
    the comparison cannot throw on it). *)
Definition long_enough (phone : value) : bool :=
  match get phone "length" with
  | Done len =>
      match lt_number len (Fin 8 0) with
      | Done b => negb b
      | Thrown => false
      end
  | Thrown => false
  end.

(** The end of [handleCreateOrder]: the document is built and inserted. *)
Definition inserting (l : link) (now : Z) (name phone items total : value)
    (w : world) : response * world :=
  match l with
  | Up =>
      (Reply 201 (BSaved "Order saved" (SOid (next_oid w))),
       World (lessons w)
         (orders w ++ [<["_id" := SOid (next_oid w)]>
                         (orderDoc name phone items total now)])
         (N.succ (next_oid w)) (InsertOne "orders" :: calls w))
  | Down =>
      (Reply 500 (BError "Failed to save order"),
       called (InsertOne "orders") w)
  end.

(** The fields of a stored order. *)
Definition order_fields : gset string :=
  {[ "_id"; "name"; "phone"; "items"; "total"; "createdAt" ]}.

(** [{ name, phone, items, total, coupon: "FREE" }] with a valid phone. *)
Definition order_with_coupon : gmap string value :=
  <["coupon" := VStr "FREE"]> (order_with_phone (VStr "07123456789")).

(** Every character of [s] is white space. *)
Definition blank (s : string) : bool :=
  forallb is_space (list_ascii_of_string s).

(** [{ id: 99 }] *)
Definition new_id : gmap string value := {["id" := int 99]}.

(** A run of the seeder that meets no failure. *)
Definition healthy (e : env) : Prop :=
  truthy (MONGODB_URI e) = true ∧ connects e = true
  ∧ delete_fault e = None ∧ insert_fault e = None.

Definition good_env : env :=
  Env (VStr "mongodb://localhost:27017") Connected None None.

(** ** The routes as one service *)

(** The requests that reach a store-backed route, already routed:
    [app.get("/lessons")], [app.get("/search")], [app.put("/lessons/:id")],
    [app.post("/orders")], [app.post("/order")], [app.get("/orders")]. *)
Inductive request :=
| GET_lessons
| GET_search (q : value)
| PUT_lesson (idParam : string) (reqBody : value)
| POST_orders (reqBody : value)
| POST_order (reqBody : value)
| GET_orders.

(** One request against the database; [l] is the state of the link and
    [now] the clock while it is served. *)
Definition serve (l : link) (now : Z) (rq : request) (w : world)
    : option (response * world) :=
  match rq with
  | GET_lessons => Some (getLessons l w)
  | GET_search q => getSearch l q w
  | PUT_lesson idParam reqBody => putLesson l idParam reqBody w
  | POST_orders reqBody => Some (post_orders l now reqBody w)
  | POST_order reqBody => Some (post_order l now reqBody w)
  | GET_orders => Some (getOrders l w)
  end.

(** A sequence of requests, served one after the other. *)
Fixpoint run (rqs : list (link * Z * request)) (w : world) : option world :=
  match rqs with
  | [] => Some w
  | (l, now, rq) :: rest =>
      match serve l now rq w with
      | Some (_, w1) => run rest w1
      | None => None
      end
  end.

(** The phones the checks let through: a string of at least 8 digits, or
    a truthy number that renders as digits. *)
Definition passable_phone (phone : value) : Prop :=
  (∃ s, phone = VStr s ∧ digits_only s = true ∧ (8 ≤ String.length s)%nat)
  ∨ (∃ n, phone = VNum n ∧ truthy (VNum n) = true
          ∧ digits_only (Number_toString n) = true).

(** What every stored order satisfies. *)
Definition well_formed_order (d : doc) : Prop :=
  dom d = order_fields
  ∧ ∃ name phone items total ms oid,
      d !! "name" = Some (SVal name) ∧ truthy name = true
      ∧ d !! "phone" = Some (SVal phone) ∧ passable_phone phone
      ∧ d !! "items" = Some (SVal items) ∧ nonempty_array items = true
      ∧ d !! "total" = Some (SVal total)
      ∧ (truthy total = true ∨ total = VNum (Fin 0 0))
      ∧ d !! "createdAt" = Some (SDate ms)
      ∧ d !! "_id" = Some (SOid oid).

(** A morning of traffic. *)
Definition sample_traffic : list (link * Z * request) :=
  [ (Up, 1, GET_lessons);
    (Up, 2, GET_search (VStr "hen"));
    (Up, 3, POST_orders (VObj (order_with_phone (VStr "07123456789"))));
    (Down, 4, POST_order (VObj (order_with_phone (VStr "07123456789"))));
    (Up, 5, PUT_lesson "3" (VObj three_spaces));
    (Up, 6, POST_order (VObj (order_with_phone (VStr "0712"))));
    (Up, 7, GET_orders) ].

(** The seeded database with one order already taken. *)
Definition open_shop : world :=
  (post_orders Up 0 (VObj (order_with_phone (VStr "02081234567"))) seeded).2.

Definition after_sample_traffic : world :=
  default open_shop (run sample_traffic open_shop).

(* ================================================================== *)
(** * Properties                                                        *)
(* ================================================================== *)

(** ** Numbers and strings *)

Lemma num_ltb_int (a b : Z) : num_ltb (Fin a 0) (Fin b 0) = (a <? b).
Proof. cbn. by rewrite !Z.mul_1_r. Qed.

Lemma num_eqb_int (a b : Z) : num_eqb (Fin a 0) (Fin b 0) = (a =? b).
Proof. cbn. by rewrite !Z.mul_1_r. Qed.

Lemma is_empty_true (s : string) : is_empty s = true ↔ s = EmptyString.
Proof. destruct s; cbn; split; congruence. Qed.

Lemma is_empty_false (s : string) : is_empty s = false ↔ s ≠ EmptyString.
Proof. destruct s; cbn; split; congruence. Qed.

Lemma length_lt_8 (s : string) :
  lt_number (VNum (of_nat (String.length s))) (Fin 8 0)
  = Done (bool_decide (String.length s < 8)%nat).
Proof.
  unfold lt_number, ToNumber, of_nat. rewrite num_ltb_int. f_equal.
  case_bool_decide; [apply Z.ltb_lt | apply Z.ltb_ge]; lia.
Qed.

(** On a string, [/^[0-9]+$/] asks for at least one character and for
    digits only. *)
Lemma digits_only_str (s : string) :
  digits_only_test (VStr s)
  = Done (negb (is_empty s) && forallb is_digit (list_ascii_of_string s)).
Proof. reflexivity. Qed.

(** ** Orders *)

(** The fields [handleCreateOrder] reads from a JSON object. *)
Lemma destructure_obj (m : gmap string value) :
  destructure (VObj m)
  = Done (default VUndef (m !! "name"), default VUndef (m !! "phone"),
          default VUndef (m !! "items"), default VUndef (m !! "total")).
Proof. reflexivity. Qed.

(** Once the four checks pass, the handler builds [orderDoc] and inserts
    it. *)
Lemma accept_path (now : Z) (m : gmap string value) (w : world)
    (name phone total x : value) (xs : list value) :
  m !! "name" = Some name → truthy name = true →
  m !! "phone" = Some phone → truthy phone = true →
  digits_only_test phone = Done true →
  (∀ len, get phone "length" = Done len →
          lt_number len (Fin 8 0) = Done false) →
  (∃ len, get phone "length" = Done len) →
  m !! "items" = Some (VArr (x :: xs)) →
  default VUndef (m !! "total") = total →
  accepted (handleCreateOrder Up now (VObj m) w) w
    (<["_id" := SOid (next_oid w)]>
       (orderDoc name phone (VArr (x :: xs)) total now)).
Proof.
  intros Hn Tn Hp Tp Hd Hlen [len Hget] Hi Ht.
  unfold accepted, handleCreateOrder.
  rewrite destructure_obj, Hn, Hp, Hi, Ht. cbn [from_option id].
  rewrite Tn, Tp. cbn [negb orb isArray get String.eqb Ascii.eqb Bool.eqb].
  assert (is_zero (VNum (of_nat (length (x :: xs)))) = false) as ->.
  { unfold is_zero, of_nat. rewrite num_eqb_int. apply Z.eqb_neq.
    cbn [length]. lia. }
  rewrite Hd. cbn [negb]. rewrite Hget, (Hlen _ Hget).
  reflexivity.
Qed.

(** C1. Every order payload with a non-empty name, a non-empty digits-only
    phone string of at least 8 characters and a non-empty items array is
    answered 201 by [POST /orders] and by its alias [POST /order] (the store
    call completing), and exactly one document is appended to [orders]: its
    total is the supplied total, or 0 when the total is absent or falsy, and
    its [createdAt] is the server's clock. *)
Theorem valid_order_is_persisted (now : Z) (m : gmap string value)
    (n p : string) (x : value) (xs : list value) (w : world) :
  m !! "name" = Some (VStr n) → n ≠ EmptyString →
  m !! "phone" = Some (VStr p) → p ≠ EmptyString →
  forallb is_digit (list_ascii_of_string p) = true →
  (8 ≤ String.length p)%nat →
  m !! "items" = Some (VArr (x :: xs)) →
  let total := default VUndef (m !! "total") in
  ∃ d : doc,
    accepted (post_orders Up now (VObj m) w) w d
    ∧ accepted (post_order Up now (VObj m) w) w d
    ∧ d !! "total"
      = Some (SVal (if truthy total then total else VNum (Fin 0 0)))
    ∧ d !! "createdAt" = Some (SDate now)
    ∧ d !! "name" = Some (SVal (VStr n))
    ∧ d !! "phone" = Some (SVal (VStr p))
    ∧ d !! "items" = Some (SVal (VArr (x :: xs))).
Proof.
  intros Hn Nn Hp Np Dp Lp Hi total.
  assert (accepted (handleCreateOrder Up now (VObj m) w) w
            (<["_id" := SOid (next_oid w)]>
               (orderDoc (VStr n) (VStr p) (VArr (x :: xs)) total now))) as H.
  { apply accept_path; try done.
    - cbn. by apply negb_true_iff, is_empty_false.
    - cbn. by apply negb_true_iff, is_empty_false.
    - rewrite digits_only_str, Dp.
      by rewrite (proj2 (is_empty_false p) Np).
    - intros len [= <-]. rewrite length_lt_8. f_equal.
      apply bool_decide_eq_false. lia.
    - by eexists. }
  eexists. repeat split; [exact H | exact H | ..];
    unfold orderDoc; by simplify_map_eq.
Qed.

(** A value that passes the test has a length that compares without
    throwing. *)
Lemma digits_length_total (phone len : value) :
  digits_only_test phone = Done true →
  get phone "length" = Done len →
  lt_number len (Fin 8 0) ≠ Thrown.
Proof.
  intros Hd Hg. destruct phone; cbn in Hg; try discriminate;
    injection Hg as <-; try done.
  unfold digits_only_test in Hd. cbn in Hd.
  by case_bool_decide.
Qed.

(** Either the handler answers 400 and leaves the database alone, or all
    its checks passed, or the phone cannot be made a string and the promise
    rejects. *)
Lemma reject_or_pass (l : link) (now : Z) (m : gmap string value)
    (w : world) :
  let name := default VUndef (m !! "name") in
  let phone := default VUndef (m !! "phone") in
  let items := default VUndef (m !! "items") in
  (∃ msg, handleCreateOrder l now (VObj m) w = (Reply 400 (BError msg), w))
  ∨ (truthy name = true ∧ truthy phone = true
     ∧ (∃ x xs, items = VArr (x :: xs))
     ∧ digits_only_test phone = Done true
     ∧ ∀ len, get phone "length" = Done len →
              lt_number len (Fin 8 0) = Done false)
  ∨ (truthy name = true ∧ truthy phone = true
     ∧ (∃ x xs, items = VArr (x :: xs))
     ∧ ToString phone = Thrown
     ∧ handleCreateOrder l now (VObj m) w = (Rejected, w)).
Proof.
  intros name phone items. unfold handleCreateOrder.
  rewrite destructure_obj. fold name phone items.
  destruct (truthy name) eqn:Tn; [| left; by eexists].
  destruct (truthy phone) eqn:Tp; [| left; by eexists].
  destruct items as [| | | | |xs|] eqn:Hi; try (left; by eexists).
  destruct xs as [|x xs]; [left; by eexists |].
  cbn [negb orb isArray get String.eqb Ascii.eqb Bool.eqb].
  assert (is_zero (VNum (of_nat (length (x :: xs)))) = false) as ->.
  { unfold is_zero, of_nat. rewrite num_eqb_int. apply Z.eqb_neq.
    cbn [length]. lia. }
  destruct (digits_only_test phone) as [[]|] eqn:Hd; cbn [negb].
  - destruct (get phone "length") as [len|] eqn:Hg.
    + destruct (lt_number len (Fin 8 0)) as [[]|] eqn:Hlt.
      * left. by eexists.
      * right. left. repeat split; eauto. by intros ? [= <-].
      * exfalso. eapply digits_length_total; eauto.
    + destruct phone; discriminate.
  - left. by eexists.
  - right. right. repeat split; eauto.
    unfold digits_only_test in Hd. by destruct (ToString phone).
Qed.

Lemma missing_or_empty_falsy (v : value) :
  missing_or_empty v → truthy v = false.
Proof. by intros [-> | [-> | ->]]. Qed.

Lemma forallb_digit_In (p : string) (c : ascii) :
  In c (list_ascii_of_string p) → is_digit c = false →
  forallb is_digit (list_ascii_of_string p) = false.
Proof.
  intros Hin Hc. apply not_true_is_false. intros H.
  rewrite forallb_forall in H. specialize (H c Hin). congruence.
Qed.

(** A payload that breaks a rule is answered 400, whatever the link. *)
Lemma violation_rejected (l : link) (now : Z) (m : gmap string value)
    (w : world) :
  violates m →
  ∃ msg, handleCreateOrder l now (VObj m) w = (Reply 400 (BError msg), w).
Proof.
  intros V.
  destruct (reject_or_pass l now m w)
    as [R | [(Tn & Tp & (x & xs & Hi) & Hd & Hl)
            | (Tn & Tp & (x & xs & Hi) & Hth & _)]];
    [exact R | exfalso ..].
  - destruct V as [Hm | Hm | p c Hp Hin Hc | p Hp Hlen | Hi'].
    + apply missing_or_empty_falsy in Hm. congruence.
    + apply missing_or_empty_falsy in Hm. congruence.
    + rewrite Hp in Hd. cbn [from_option id] in Hd.
      rewrite digits_only_str, (forallb_digit_In p c Hin Hc) in Hd.
      by rewrite andb_false_r in Hd.
    + rewrite Hp in Hl. cbn [from_option id] in Hl.
      specialize (Hl _ eq_refl). rewrite length_lt_8 in Hl.
      injection Hl as Hl. apply bool_decide_eq_false in Hl. lia.
    + destruct (m !! "items") as [v|] eqn:E; [| discriminate].
      cbn [from_option id] in Hi. subst v. by eapply Hi'.
  - destruct V as [Hm | Hm | p c Hp Hin Hc | p Hp Hlen | Hi'].
    + apply missing_or_empty_falsy in Hm. congruence.
    + apply missing_or_empty_falsy in Hm. congruence.
    + by rewrite Hp in Hth.
    + by rewrite Hp in Hth.
    + destruct (m !! "items") as [v|] eqn:E; [| discriminate].
      cbn [from_option id] in Hi. subst v. by eapply Hi'.
Qed.

(** X25. An order payload whose name is missing or empty, whose phone is
    missing or empty, or is a string with a non-digit character or with
    fewer than 8 characters, or whose items are not a non-empty array, is
    answered 400 by [POST /orders] and the database is left as it was: no
    document is written, no store call is made, and any number of repeated
    submissions leaves it unchanged too. *)
Theorem invalid_order_is_rejected (m : gmap string value) (w : world) :
  violates m →
  (∀ l now, ∃ msg,
      post_orders l now (VObj m) w = (Reply 400 (BError msg), w))
  ∧ (∀ attempts, resubmit m attempts w = w).
Proof.
  intros V. split.
  - intros l now. by apply violation_rejected.
  - intros attempts. unfold resubmit.
    induction attempts as [|[l now] attempts IH]; [done |].
    cbn [fold_left fst snd].
    destruct (violation_rejected l now m w V) as [msg E].
    unfold post_orders. by rewrite E.
Qed.

(** C2, on the code: the rule on the length of the phone is only applied
    to a phone sent as a string.  The payload
    [{ name: "Ada", phone: 1234567, items: [{ id: 1, quantity: 2 }],
       total: 250 }] has a phone of 7 digits, shorter than 8; it is not
    answered 400: [POST /orders] answers 201 and the order is stored, with
    the 7-digit number as its phone. *)
Theorem short_numeric_phone_is_stored (now : Z) (w : world) :
  let m := order_with_phone (int 1234567) in
  shorter_than_8 (default VUndef (m !! "phone"))
  ∧ (∀ msg, post_orders Up now (VObj m) w ≠ (Reply 400 (BError msg), w))
  ∧ ∃ d : doc,
      accepted (post_orders Up now (VObj m) w) w d
      ∧ d !! "phone" = Some (SVal (int 1234567)).
Proof.
  intros m.
  assert (accepted (post_orders Up now (VObj m) w) w
            (<["_id" := SOid (next_oid w)]>
               (orderDoc (VStr "Ada") (int 1234567)
                  (VArr [VObj (<["id" := int 1]> {["quantity" := int 2]})])
                  (int 250) now))) as H.
  { apply accept_path; try done.
    - by intros len [= <-].
    - by eexists. }
  split; [| split].
  - exists "1234567". split; [reflexivity | cbn; lia].
  - intros msg E. unfold accepted in H. rewrite E in H. discriminate.
  - eexists. split; [exact H |]. unfold orderDoc. by simplify_map_eq.
Qed.

(** C10. A phone supplied as a JSON number is never rejected by the
    minimum-length rule: when the number is truthy and its decimal rendering
    matches the digits-only pattern, the payload is accepted and the order
    is persisted with that number as its phone, however few digits it
    has. *)
Theorem numeric_phone_skips_length_rule (now : Z) (m : gmap string value)
    (n : string) (phone : number) (x : value) (xs : list value) (w : world) :
  m !! "name" = Some (VStr n) → n ≠ EmptyString →
  m !! "phone" = Some (VNum phone) → truthy (VNum phone) = true →
  digits_only_test (VNum phone) = Done true →
  m !! "items" = Some (VArr (x :: xs)) →
  ∃ d : doc,
    accepted (post_orders Up now (VObj m) w) w d
    ∧ d !! "phone" = Some (SVal (VNum phone)).
Proof.
  intros Hn Nn Hp Tp Dp Hi.
  eexists. split.
  - apply (accept_path now m w (VStr n) (VNum phone)
             (default VUndef (m !! "total")) x xs); try done.
    + cbn. by apply negb_true_iff, is_empty_false.
    + by intros len [= <-].
    + by eexists.
  - unfold orderDoc. by simplify_map_eq.
Qed.

(** ** Lesson ids *)

Lemma append_nil_l (s : string) : EmptyString +:+ s = s.
Proof. reflexivity. Qed.

Lemma append_cons (c : ascii) (a b : string) :
  String c a +:+ b = String c (a +:+ b).
Proof. reflexivity. Qed.

Lemma span_digits_app (ds rest : string) :
  forallb is_digit (list_ascii_of_string ds) = true →
  match rest with
  | EmptyString => True
  | String c _ => is_digit c = false
  end →
  span is_digit (ds +:+ rest) = (ds, rest).
Proof.
  intros Hds Hrest.
  induction ds as [|c ds IH]; cbn [list_ascii_of_string forallb] in Hds.
  - rewrite append_nil_l. destruct rest as [|c r]; [done |].
    cbn [span]. by rewrite Hrest.
  - apply andb_true_iff in Hds as [Hc Hds].
    rewrite append_cons. cbn [span]. by rewrite Hc, IH.
Qed.

(** Rounding gives a number. *)
Lemma to_double_not_nan (m e : Z) : isNaN (to_double m e) = false.
Proof. unfold to_double. repeat (case_match; try done). Qed.

(** On a string that starts with a digit, [parseInt] skips nothing and
    reads the leading run of digits. *)
Lemma parseInt10_leading_digit (c : ascii) (r : string) :
  is_digit c = true →
  parseInt10 (String c r)
  = to_double (digits_val 10 digit_val 0 (span is_digit (String c r)).1) 0.
Proof.
  intros Hc. unfold parseInt10.
  assert (is_space c = false) as Hs.
  { destruct c as [[] [] [] [] [] [] [] []]; try done; discriminate. }
  cbn [trimStart]. rewrite Hs.
  assert ((let '(neg, u) :=
             match String c r with
             | String "+" r0 => (false, r0)
             | String "-" r0 => (true, r0)
             | _ => (false, String c r)
             end in (neg, u)) = (false, String c r)) as Hsign.
  { destruct c as [[] [] [] [] [] [] [] []]; try done; discriminate. }
  destruct (match String c r with
            | String "+" r0 => (false, r0)
            | String "-" r0 => (true, r0)
            | _ => (false, String c r)
            end) as [neg u].
  injection Hsign as -> ->.
  cbn [span]. rewrite Hc. destruct (span is_digit r) as [a b]. reflexivity.
Qed.

(** [parseInt] ignores what follows the leading digits. *)
Lemma parseInt10_prefix (ds rest : string) :
  ds ≠ EmptyString →
  forallb is_digit (list_ascii_of_string ds) = true →
  match rest with
  | EmptyString => True
  | String c _ => is_digit c = false
  end →
  parseInt10 (ds +:+ rest) = to_double (digits_val 10 digit_val 0 ds) 0.
Proof.
  intros Hne Hds Hrest.
  pose proof (span_digits_app ds rest Hds Hrest) as Hspan.
  destruct ds as [|c ds]; [done |].
  cbn in Hds. apply andb_true_iff in Hds as [Hc _].
  change (String c ds +:+ rest) with (String c (ds +:+ rest)) in *.
  rewrite parseInt10_leading_digit by done. by rewrite Hspan.
Qed.

Lemma append_empty_r (s : string) : s +:+ EmptyString = s.
Proof. induction s as [|c s IH]; [done |]. by rewrite append_cons, IH. Qed.

(** ** Listing *)

Lemma find_all (c : list doc) : find Up FAll c = Done c.
Proof.
  cbn [find]. f_equal. induction c as [|d c IH]; [done |].
  simpl. by f_equal.
Qed.

Lemma getLessons_up (w : world) :
  getLessons Up w = (Reply 200 (BDocs (lessons w)), called (Find "lessons") w).
Proof. unfold getLessons. cbn [called lessons]. by rewrite find_all. Qed.

(** ** Updating a lesson *)

(** A field passes the equality test of the store exactly when it is the
    number or an array that holds it. *)
Lemma number_field (n : number) (f : option stored) :
  field_passes (is_number n) f = true ↔ number_in n f.
Proof.
  unfold number_in, equals_number. split.
  - destruct f as [[[| | |x| |l|]| |]|]; cbn [field_passes is_number];
      try done.
    + intros H. left. eauto.
    + intros H. apply existsb_exists in H as ([| | |x| | |] & Hin & Hx);
        try done.
      right. exists l, x. repeat split; [by apply list_elem_of_In | done].
  - intros [(x & -> & Hx) | (l & x & -> & Hin & Hx)]; [done |].
    cbn [field_passes]. apply existsb_exists. exists (VNum x).
    split; [by apply list_elem_of_In | done].
Qed.

Lemma matches_id (n : number) (d : doc) :
  matches (FEq "id" n) d = true ↔ has_id n d.
Proof. apply number_field. Qed.

Lemma update_first_none (q : filter) (patch : gmap string value)
    (c : list doc) :
  update_first q patch c = None ↔ Forall (λ d, matches q d = false) c.
Proof.
  induction c as [|d c IH]; cbn [update_first].
  - split; [by constructor | done].
  - destruct (matches q d) eqn:E.
    + split; [done |]. intros H. inversion H; congruence.
    + rewrite fmap_None, IH. split.
      * intros H. by constructor.
      * intros H. by inversion H.
Qed.

(** The call patches the first match where it stands. *)
Lemma update_first_some (q : filter) (patch : gmap string value)
    (c c' : list doc) :
  update_first q patch c = Some c' →
  ∃ pre d post,
    c = pre ++ d :: post
    ∧ c' = pre ++ set_fields patch d :: post
    ∧ Forall (λ d, matches q d = false) pre
    ∧ matches q d = true.
Proof.
  revert c'. induction c as [|d c IH]; intros c'; cbn [update_first];
    [done |].
  destruct (matches q d) eqn:E.
  - intros [= <-]. by exists [], d, c.
  - intros H. apply fmap_Some in H as (c0 & H & ->).
    destruct (IH _ H) as (pre & d0 & post & -> & -> & Hpre & Hd).
    exists (d :: pre), d0, post. repeat split; try done. by constructor.
Qed.

Lemma update_first_at (q : filter) (patch : gmap string value)
    (pre post : list doc) (d : doc) :
  Forall (λ d, matches q d = false) pre → matches q d = true →
  update_first q patch (pre ++ d :: post)
  = Some (pre ++ set_fields patch d :: post).
Proof.
  intros Hpre Hd. induction Hpre as [|d0 pre H0 _ IH]; cbn [update_first app].
  - by rewrite Hd.
  - by rewrite H0, IH.
Qed.

Lemma set_fields_named (patch : gmap string value) (d : doc) (k : string)
    (v : value) :
  patch !! k = Some v → set_fields patch d !! k = Some (SVal v).
Proof.
  intros H. unfold set_fields.
  apply lookup_union_Some_l. by rewrite lookup_fmap, H.
Qed.

Lemma set_fields_other (patch : gmap string value) (d : doc) (k : string) :
  patch !! k = None → set_fields patch d !! k = d !! k.
Proof.
  intros H. unfold set_fields.
  apply lookup_union_r. by rewrite lookup_fmap, H.
Qed.

(** What [PUT /lessons/:id] does once the id parsed and the body is a
    modelled patch. *)
Lemma putLesson_parsed (l : link) (idParam : string) (reqBody : value)
    (patch : gmap string value) (w : world) :
  isNaN (parseInt10 idParam) = false →
  set_operand (updateData reqBody) = Some patch →
  putLesson l idParam reqBody w
  = let w1 := called (UpdateOne "lessons") w in
    match updateOne l (FEq "id" (parseInt10 idParam)) patch (lessons w) with
    | Done (matchedCount, ls) =>
        if is_zero (VNum matchedCount)
        then Some (Reply 404 (BError "Lesson not found"), w1)
        else Some (Reply 200 (BMessage "Lesson updated"), with_lessons ls w1)
    | Thrown => Some (Reply 500 (BError "Failed to update lesson"), w1)
    end.
Proof.
  intros Hn Hp. unfold putLesson. by rewrite Hn, Hp.
Qed.

(** C9. An id segment made of decimal digits followed by non-digit
    characters (such as [3abc]) is read as the number its leading digits
    spell and is not answered 400: [PUT /lessons/:id] treats it exactly as
    the segment made of the leading digits alone, so it updates that
    lesson: when the store call completes and the first lesson with that
    number as its id is [d], the answer is 200 and [d] is patched where it
    stands. *)
Theorem digit_prefixed_id_is_accepted (ds rest : string) :
  ds ≠ EmptyString →
  forallb is_digit (list_ascii_of_string ds) = true →
  rest ≠ EmptyString →
  forallb (λ c, negb (is_digit c)) (list_ascii_of_string rest) = true →
  parseInt10 (ds +:+ rest) = to_double (digits_val 10 digit_val 0 ds) 0
  ∧ ∀ reqBody w,
      (∀ l, putLesson l (ds +:+ rest) reqBody w = putLesson l ds reqBody w)
      ∧ (∀ l b w',
           putLesson l (ds +:+ rest) reqBody w ≠ Some (Reply 400 b, w'))
      ∧ (∀ patch pre d post,
           set_operand (updateData reqBody) = Some patch →
           lessons w = pre ++ d :: post →
           (∀ d', d' ∈ pre → ¬ has_id (parseInt10 ds) d') →
           has_id (parseInt10 ds) d →
           putLesson Up (ds +:+ rest) reqBody w
           = Some (Reply 200 (BMessage "Lesson updated"),
                   with_lessons (pre ++ set_fields patch d :: post)
                     (called (UpdateOne "lessons") w))).
Proof.
  intros Hne Hds Hrne Hrest.
  assert (parseInt10 (ds +:+ rest)
          = to_double (digits_val 10 digit_val 0 ds) 0) as E1.
  { apply parseInt10_prefix; try done.
    destruct rest as [|c r]; [done |]. cbn in Hrest.
    apply andb_true_iff in Hrest as [Hc _]. by apply negb_true_iff. }
  assert (parseInt10 ds = to_double (digits_val 10 digit_val 0 ds) 0) as E2.
  { rewrite <- (append_empty_r ds) at 1. by apply parseInt10_prefix. }
  split; [exact E1 |]. intros reqBody w.
  assert (∀ l, putLesson l (ds +:+ rest) reqBody w = putLesson l ds reqBody w)
    as Hsame.
  { intros l. unfold putLesson. by rewrite E1, E2. }
  split; [exact Hsame |]. split.
  - intros l b w'. unfold putLesson. rewrite E1, to_double_not_nan.
    destruct (set_operand _) as [patch|]; [| done]. cbn [mbind option_bind].
    destruct (updateOne _ _ _ _) as [[n ls]|]; [| done].
    by destruct (is_zero _).
  - intros patch pre d post Hp Hw Hpre Hd.
    rewrite Hsame, (putLesson_parsed _ _ _ patch);
      [| rewrite E2; apply to_double_not_nan | done].
    cbn [updateOne]. rewrite Hw, update_first_at; [done | |].
    + apply Forall_forall. intros d' Hd'.
      apply not_true_is_false. rewrite matches_id. by apply Hpre.
    + by apply matches_id.
Qed.


(** C7, as amended. An update changes at most one lesson, and only one
    that has the given id as the store matches it (its [id] is the number,
    or an array that holds it): every other lesson stays as it was, the
    orders stay as they were, and in the lesson that is patched every field
    the patch does not name keeps its value. *)
Theorem update_touches_one_record (l : link) (idParam : string)
    (reqBody : value) (w w' : world) (r : response) :
  putLesson l idParam reqBody w = Some (r, w') →
  orders w' = orders w
  ∧ length (lessons w') = length (lessons w)
  ∧ (∀ i j, lessons w' !! i ≠ lessons w !! i →
            lessons w' !! j ≠ lessons w !! j → i = j)
  ∧ (∀ i d, lessons w !! i = Some d → ¬ has_id (parseInt10 idParam) d →
            lessons w' !! i = Some d)
  ∧ (∀ patch i d d' k,
       set_operand (updateData reqBody) = Some patch →
       lessons w !! i = Some d → lessons w' !! i = Some d' →
       patch !! k = None → d' !! k = d !! k).
Proof.
  intros H.
  assert (w' = w ∨ w' = called (UpdateOne "lessons") w
          ∨ ∃ patch pre d post,
              set_operand (updateData reqBody) = Some patch
              ∧ lessons w = pre ++ d :: post
              ∧ lessons w' = pre ++ set_fields patch d :: post
              ∧ orders w' = orders w
              ∧ has_id (parseInt10 idParam) d) as Hcases.
  { destruct (isNaN (parseInt10 idParam)) eqn:Hn.
    - unfold putLesson in H. rewrite Hn in H. injection H as _ <-. by left.
    - destruct (set_operand (updateData reqBody)) as [patch|] eqn:Hp.
      + rewrite (putLesson_parsed _ _ _ patch) in H by done.
        destruct l; cbn [updateOne] in H.
        * destruct (update_first _ patch (lessons w)) as [ls|] eqn:Hu.
          -- cbn in H. injection H as _ <-.
             apply update_first_some in Hu
               as (pre & d & post & Hw & -> & _ & Hd).
             right; right. exists patch, pre, d, post.
             repeat split; try done. by apply matches_id.
          -- cbn in H. injection H as _ <-. right; by left.
        * injection H as _ <-. right; by left.
      + unfold putLesson in H. by rewrite Hn, Hp in H. }
  destruct Hcases
    as [-> | [-> | (patch & pre & d & post & Hp & Hw & Hw' & Ho & Hd)]].
  1, 2: by repeat split; try done; intros;
          cbn [called lessons orders] in *; congruence.
  rewrite Hw, Hw'. repeat split.
  - done.
  - by rewrite !length_app.
  - intros i j Hi Hj.
    assert (∀ n, (pre ++ set_fields patch d :: post) !! n
                 ≠ (pre ++ d :: post) !! n → n = length pre) as Hat.
    { intros n Hne. destruct (decide (n = length pre)) as [|Hn]; [done |].
      exfalso. apply Hne.
      destruct (decide (n < length pre)%nat).
      - by rewrite !lookup_app_l.
      - rewrite !lookup_app_r by lia.
        destruct (n - length pre)%nat eqn:E; [lia | done]. }
    rewrite (Hat i Hi). by rewrite (Hat j Hj).
  - intros i d0 Hi Hno.
    destruct (decide (i = length pre)) as [-> | Hn].
    + rewrite list_lookup_middle in Hi by done. by injection Hi as <-.
    + rewrite <- Hi. destruct (decide (i < length pre)%nat).
      * by rewrite !lookup_app_l.
      * rewrite !lookup_app_r by lia.
        destruct (i - length pre)%nat eqn:E; [lia | done].
  - intros patch' i d0 d' k Hp' Hi Hi' Hk.
    assert (patch' = patch) as -> by congruence.
    destruct (decide (i = length pre)) as [-> | Hn].
    + rewrite list_lookup_middle in Hi, Hi' by done.
      injection Hi as <-. injection Hi' as <-. by apply set_fields_other.
    + assert ((pre ++ set_fields patch d :: post) !! i
              = (pre ++ d :: post) !! i) as E.
      { destruct (decide (i < length pre)%nat).
        - by rewrite !lookup_app_l.
        - rewrite !lookup_app_r by lia.
          destruct (i - length pre)%nat eqn:E; [lia | done]. }
      congruence.
Qed.

(** C7, as stated, fails: once the id of lesson 1 is the list [[1, 42]],
    [PUT /lessons/42] with [{ spaces: 3 }] patches that lesson, whose id
    does not equal 42. *)
Lemma shared_id_is_patched :
  ¬ others_unchanged "42" (VObj three_spaces) seeded_shared_id.
Proof.
  intros H.
  destruct (putLesson Up "42" (VObj three_spaces) seeded_shared_id)
    as [[r w']|] eqn:E; [| vm_compute in E; discriminate].
  destruct (lessons seeded_shared_id !! 0%nat) as [d|] eqn:Ed;
    [| vm_compute in Ed; discriminate].
  assert (lessons w' !! 0%nat = Some d) as Hsame.
  { apply (H r w' 0%nat d E Ed). intros (x & Hx & _).
    vm_compute in Ed. injection Ed as <-. vm_compute in Hx. discriminate. }
  assert (d !! "spaces" = Some (SVal (int 5))) as H5.
  { vm_compute in Ed. injection Ed as <-. reflexivity. }
  assert (∃ d', lessons w' !! 0%nat = Some d'
                ∧ d' !! "spaces" = Some (SVal (int 3))) as (d' & Hd' & H3).
  { vm_compute in E. injection E as <- <-. eexists. split; reflexivity. }
  rewrite Hsame in Hd'. injection Hd' as <-. rewrite H5 in H3. discriminate.
Qed.

(** ** Searching with a blank term *)

(** C6. When [q] is absent, empty or made of white space only,
    [GET /search] returns the very list [GET /lessons] returns on the same
    database (the store call completing), so the two have the same
    members. *)
Theorem blank_search_lists_all (q : value) (w : world) :
  q = VUndef ∨ (∃ s, q = VStr s ∧ trim s = EmptyString) →
  ∃ ds w1 w2,
    getSearch Up q w = Some (Reply 200 (BDocs ds), w1)
    ∧ getLessons Up w = (Reply 200 (BDocs ds), w2)
    ∧ ∀ d, d ∈ ds ↔ d ∈ lessons w.
Proof.
  intros Hq. exists (lessons w). rewrite getLessons_up.
  do 2 eexists. split; [| split; [reflexivity | done]].
  unfold getSearch.
  assert (∃ s, (if truthy q then q else VStr "") = VStr s
               ∧ trim s = EmptyString) as (s & -> & Hs).
  { destruct Hq as [-> | (s & -> & Hs)].
    - by exists EmptyString.
    - destruct (truthy (VStr s)); [by exists s | by exists EmptyString]. }
  rewrite Hs. cbn [truthy is_empty negb called lessons].
  by rewrite find_all.
Qed.

(** ** Seeding *)

Lemma with_ids_length (oid : N) (ds : list (gmap string value)) :
  length (with_ids oid ds) = length ds.
Proof. revert oid. induction ds as [|d ds IH]; intros oid; cbn; by f_equal. Qed.

(** Apart from the generated [_id], the stored documents are the inserted
    ones. *)
Lemma with_ids_strip (oid : N) (ds : list (gmap string value)) :
  Forall (λ d : gmap string value, d !! "_id" = None) ds →
  strip_id <$> with_ids oid ds = as_stored <$> ds.
Proof.
  intros H. revert oid. induction H as [|d ds Hd _ IH]; intros oid; [done |].
  cbn [with_ids fmap list_fmap]. f_equal; [| apply IH].
  unfold strip_id, as_stored.
  rewrite delete_insert_eq. apply delete_id. by rewrite lookup_fmap, Hd.
Qed.

Lemma catalog_no_id :
  Forall (λ d : gmap string value, d !! "_id" = None) catalog.
Proof. repeat constructor. Qed.

(** With a connection the run is the [try] block. *)
Lemma seed_connected (e : env) (w : world) :
  truthy (MONGODB_URI e) = true → connects e = true →
  seed e w = (0, (try_block e w).2).
Proof.
  intros Hu Hc. unfold seed. rewrite Hu. unfold connects in Hc.
  destruct (client_state e); try done; by destruct (try_block e w).
Qed.

(** A run that meets no failure. *)
Lemma seed_success (e : env) (w : world) :
  truthy (MONGODB_URI e) = true → connects e = true →
  delete_fault e = None → insert_fault e = None →
  seed e w
  = (0, World (with_ids (next_oid w) catalog) (orders w)
          (next_oid w + 10)%N
          (InsertMany "lessons" :: DeleteMany "lessons" :: calls w)).
Proof.
  intros Hu Hc Hd Hi. unfold seed, try_block. rewrite Hu, Hc, Hd, Hi.
  unfold connects in Hc. by destruct (client_state e).
Qed.

(** C5. Whatever the lessons collection held before, a run of the seeder
    that meets no failure leaves in it exactly the ten records of the
    catalog, in order, each with a generated [_id]: ids 1 to 10, with the
    listed subject, location and price, and 5 spaces each. *)
Theorem reseeding_yields_catalog (e : env) (w : world) :
  truthy (MONGODB_URI e) = true → connects e = true →
  delete_fault e = None → insert_fault e = None →
  let w' := (seed e w).2 in
  length (lessons w') = 10%nat
  ∧ strip_id <$> lessons w' = as_stored <$> catalog
  ∧ (λ d : gmap string value, (d !! "id", d !! "subject", d !! "location",
                               d !! "price", d !! "spaces")) <$> catalog
    = (λ r : Z * string * string * Z,
         let '(i, s, l, p) := r in
         (Some (VNum (Fin i 0)), Some (VStr s), Some (VStr l),
          Some (VNum (Fin p 0)), Some (VNum (Fin 5 0))))
      <$> [ (1, "Mathematics", "Hendon", 100);
            (2, "English", "Colindale", 80);
            (3, "Biology", "Golders Green", 90);
            (4, "Chemistry", "Brent Cross", 70);
            (5, "History", "Hendon", 50);
            (6, "Physics", "Colindale", 95);
            (7, "Art", "Brent Cross", 60);
            (8, "Geography", "Golders Green", 85);
            (9, "Computer Science", "Hendon", 120);
            (10, "Economics", "Colindale", 110) ]
  ∧ orders w' = orders w.
Proof.
  intros Hu Hc Hd Hi. rewrite seed_success by done. cbn [snd lessons orders].
  split; [by rewrite with_ids_length |].
  split; [apply with_ids_strip, catalog_no_id |].
  split; [| done]. vm_compute. reflexivity.
Qed.

(** The exit status only depends on the connection string: whether it is
    there and whether the client takes it. *)
Lemma seed_exit_status (e : env) (w : world) :
  (seed e w).1
  = if truthy (MONGODB_URI e)
    then match client_state e with BadString => 1 | _ => 0 end
    else 1.
Proof.
  unfold seed. destruct (truthy (MONGODB_URI e)); [| done].
  cbn [negb]. by destruct (client_state e), (try_block e w).
Qed.

(** C8, on the code: with a connection string set and a server that
    cannot be reached, the run fails and the process still exits with
    status 0; the collection is left as it was. *)
Theorem seed_swallows_connection_failure :
  let e := Env (VStr "mongodb://localhost:27017") Unreachable None None in
  let w := World (with_ids 0 catalog) [] 10 [] in
  failed e = true ∧ seed e w = (0, w).
Proof. split; reflexivity. Qed.

(** ** Searching with a term *)













(** A term with digits in front and letters behind is not a number. *)
Example numeric_prefix_is_not_a_number :
  Number_of_string "12abc" = NaN ∧ Number_of_string "100" = Fin 100 0.
Proof. split; reflexivity. Qed.

(** Text is read to the nearest double: a term too small for one is 0, and
    an id above 2^53 is read as its even neighbour. *)
Example text_is_rounded :
  Number_of_string "1e-400" = Fin 0 0
  ∧ Number_of_string "1e400" = Inf false
  ∧ parseInt10 "9007199254740993" = Fin 9007199254740992 0.
Proof. repeat split; vm_compute; reflexivity. Qed.


(** ** The properties at sample requests *)

Lemma absent_id (n : number) (c : list doc) :
  forallb (λ d, negb (matches (FEq "id" n) d)) c = true →
  ∀ d, d ∈ c → ¬ has_id n d.
Proof.
  intros H d Hd Hid. rewrite forallb_forall in H.
  apply list_elem_of_In, H, negb_true_iff in Hd.
  apply matches_id in Hid. congruence.
Qed.

Lemma valid_order_is_persisted_witness :
  ∃ d : doc,
    accepted (post_orders Up 1700000000000
                (VObj (order_with_phone (VStr "07123456789"))) seeded)
             seeded d
    ∧ d !! "total" = Some (SVal (int 250))
    ∧ d !! "createdAt" = Some (SDate 1700000000000).
Proof.
  destruct (valid_order_is_persisted 1700000000000
              (order_with_phone (VStr "07123456789")) "Ada" "07123456789"
              (VObj (<["id" := int 1]> {["quantity" := int 2]})) [] seeded)
    as (d & H1 & _ & H3 & H4 & _);
    [reflexivity | discriminate | reflexivity | discriminate | reflexivity
    | cbn; lia | reflexivity |].
  exists d. split; [exact H1 |]. split; [exact H3 | exact H4].
Defined.

Lemma invalid_order_is_rejected_witness :
  (∃ msg,
     post_orders Down 7 (VObj (order_with_phone (VStr "0712-345-678"))) seeded
     = (Reply 400 (BError msg), seeded))
  ∧ resubmit (order_with_phone (VStr "0712-345-678"))
      [(Up, 1); (Down, 2); (Up, 3)] seeded = seeded.
Proof.
  destruct (invalid_order_is_rejected
              (order_with_phone (VStr "0712-345-678")) seeded) as [H1 H2].
  - apply (phone_not_digits _ "0712-345-678" "-");
      [reflexivity | cbn; tauto | reflexivity].
  - split; [apply H1 | apply H2].
Defined.

Lemma numeric_phone_skips_length_rule_witness :
  ∃ d : doc,
    accepted (post_orders Up 1700000000000
                (VObj (order_with_phone (int 123))) seeded) seeded d
    ∧ d !! "phone" = Some (SVal (int 123)).
Proof.
  apply (numeric_phone_skips_length_rule 1700000000000
           (order_with_phone (int 123)) "Ada" (Fin 123 0)
           (VObj (<["id" := int 1]> {["quantity" := int 2]})) [] seeded);
    [reflexivity | discriminate | reflexivity | reflexivity | reflexivity
    | reflexivity].
Defined.



Lemma update_touches_one_record_witness :
  orders seeded_then_patched = orders seeded
  ∧ length (lessons seeded_then_patched) = length (lessons seeded)
  ∧ lessons seeded_then_patched !! 0%nat = lessons seeded !! 0%nat.
Proof.
  destruct (update_touches_one_record Up "3" (VObj three_spaces) seeded
              seeded_then_patched (Reply 200 (BMessage "Lesson updated")))
    as (H1 & H2 & _ & H4 & _); [reflexivity |].
  split; [exact H1 |]. split; [exact H2 |].
  destruct (lessons seeded !! 0%nat) as [d|] eqn:E; [| discriminate].
  apply H4; [exact E |]. intros Hid%matches_id.
  vm_compute in E. injection E as <-. vm_compute in Hid. discriminate.
Defined.

Lemma reseeding_yields_catalog_witness :
  let e := Env (VStr "mongodb://localhost:27017") Connected None None in
  let w := World [∅; ∅] [] 0 [] in
  length (lessons (seed e w).2) = 10%nat
  ∧ strip_id <$> lessons (seed e w).2 = as_stored <$> catalog.
Proof.
  intros e w.
  destruct (reseeding_yields_catalog e w eq_refl eq_refl eq_refl eq_refl)
    as (H1 & H2 & _).
  split; [exact H1 | exact H2].
Defined.

Lemma blank_search_lists_all_witness :
  ∃ ds w1 w2,
    getSearch Up (VStr "   ") seeded = Some (Reply 200 (BDocs ds), w1)
    ∧ getLessons Up seeded = (Reply 200 (BDocs ds), w2)
    ∧ ∀ d, d ∈ ds ↔ d ∈ lessons seeded.
Proof.
  apply (blank_search_lists_all (VStr "   ") seeded).
  right. exists "   ". split; reflexivity.
Defined.

Lemma digit_prefixed_id_is_accepted_witness :
  parseInt10 "3abc" = Fin 3 0
  ∧ putLesson Up "3abc" (VObj three_spaces) seeded
    = putLesson Up "3" (VObj three_spaces) seeded
  ∧ putLesson Up "3abc" (VObj three_spaces) seeded
    ≠ Some (Reply 400 (BError "Lesson id must be a number"), seeded)
  ∧ putLesson Up "3abc" (VObj three_spaces) seeded
    = Some (Reply 200 (BMessage "Lesson updated"), seeded_then_patched)
  ∧ (λ d : doc, (d !! "id", d !! "spaces")) <$> lessons seeded_then_patched
    = (λ i, (Some (SVal (int i)),
             Some (SVal (int (if i =? 3 then 3 else 5)))))
      <$> [1; 2; 3; 4; 5; 6; 7; 8; 9; 10].
Proof.
  destruct (digit_prefixed_id_is_accepted "3" "abc") as [H0 H];
    [discriminate | reflexivity | discriminate | reflexivity |].
  destruct (H (VObj three_spaces) seeded) as (H1 & H2 & H3).
  split; [exact H0 |]. split; [apply H1 |]. split; [apply H2 |].
  split; [| vm_compute; reflexivity].
  etrans.
  - apply (H3 three_spaces (List.firstn 2 (lessons seeded))
             (<["_id" := SOid 2]>
                (as_stored (lesson 3 "Biology" "Golders Green" 90 5
                   "fa-solid fa-seedling"
                   "https://img.icons8.com/color/240/dna-helix.png")))
             (List.skipn 3 (lessons seeded)));
      [reflexivity | reflexivity | apply absent_id; reflexivity
      | left; exists (Fin 3 0); split; reflexivity].
  - vm_compute. reflexivity.
Defined.

(** ** Further properties of the order route *)

Lemma destructure_done (reqBody : value) :
  reqBody ≠ VUndef → reqBody ≠ VNull →
  ∃ name phone items total,
    destructure reqBody = Done (name, phone, items, total).
Proof.
  intros H1 H2. unfold destructure.
  destruct reqBody; try done; cbn [get]; eauto.
Qed.

Lemma destructure_thrown (reqBody : value) :
  destructure reqBody = Thrown ↔ reqBody = VUndef ∨ reqBody = VNull.
Proof.
  split.
  - destruct reqBody; cbn; try discriminate; auto.
  - by intros [-> | ->].
Qed.

(** The handler as a decision table over the four fields it reads. *)
Lemma order_table (l : link) (now : Z) (reqBody : value) (w : world)
    (name phone items total : value) :
  destructure reqBody = Done (name, phone, items, total) →
  handleCreateOrder l now reqBody w
  = if truthy name && truthy phone && nonempty_array items
    then match digits_only_test phone with
         | Thrown => (Rejected, w)
         | Done phoneDigitsOnly =>
             if phoneDigitsOnly && long_enough phone
             then inserting l now name phone items total w
             else (bad_phone, w)
         end
    else (missing, w).
Proof.
  intros E. unfold handleCreateOrder. rewrite E.
  destruct (truthy name); [| done].
  destruct (truthy phone) eqn:Tp; [| done].
  destruct items as [| | | | |xs|]; try done.
  destruct xs as [|x xs]; [done |].
  cbn [negb orb andb isArray nonempty_array get String.eqb Ascii.eqb Bool.eqb].
  assert (is_zero (VNum (of_nat (length (x :: xs)))) = false) as ->.
  { unfold is_zero, of_nat. rewrite num_eqb_int. apply Z.eqb_neq.
    cbn [length]. lia. }
  destruct (digits_only_test phone) as [[]|] eqn:Hd; [| done | done].
  cbn [negb andb]. unfold long_enough.
  destruct (get phone "length") as [len|] eqn:Hg.
  - destruct (lt_number len (Fin 8 0)) as [[]|] eqn:Hlt; [done | |].
    + by destruct l.
    + exfalso. eapply digits_length_total; eauto.
  - destruct phone; discriminate.
Qed.

Lemma legacy_table (l : link) (now : Z) (reqBody : value) (w : world)
    (name phone items total : value) :
  destructure reqBody = Done (name, phone, items, total) →
  Legacy.handleCreateOrder l now reqBody w
  = if truthy name && truthy phone && nonempty_array items
    then inserting l now name phone items total w
    else (Legacy.missing, w).
Proof.
  intros E. unfold Legacy.handleCreateOrder. rewrite E.
  destruct (truthy name); [| done].
  destruct (truthy phone) eqn:Tp; [| done].
  destruct items as [| | | | |xs|]; try done.
  destruct xs as [|x xs]; [done |].
  cbn [negb orb andb isArray nonempty_array get String.eqb Ascii.eqb Bool.eqb].
  assert (is_zero (VNum (of_nat (length (x :: xs)))) = false) as ->.
  { unfold is_zero, of_nat. rewrite num_eqb_int. apply Z.eqb_neq.
    cbn [length]. lia. }
  by destruct l.
Qed.

(** X1. Whatever the request, [handleCreateOrder] leaves the lessons as
    they are (placing an order does not take spaces), and the orders change
    only when it answers 201: then exactly one document is appended, whose
    [_id] is the [orderId] of the answer.  Every other answer leaves the
    orders untouched. *)
Theorem order_route_frame (l : link) (now : Z) (reqBody : value)
    (w : world) :
  let r := handleCreateOrder l now reqBody w in
  lessons r.2 = lessons w
  ∧ ((orders r.2 = orders w ∧ status_of r.1 ≠ Some 201%nat)
     ∨ (∃ d i, orders r.2 = orders w ++ [d]
               ∧ r.1 = Reply 201 (BSaved "Order saved" i)
               ∧ d !! "_id" = Some i)).
Proof.
  intros r. subst r.
  destruct (destructure reqBody) as [[[[name phone] items] total]|] eqn:E.
  - rewrite (order_table _ _ _ _ _ _ _ _ E).
    destruct (_ && nonempty_array items); [| split; [done | by left]].
    destruct (digits_only_test phone) as [ok|]; [| split; [done | by left]].
    destruct (ok && long_enough phone); [| split; [done | by left]].
    destruct l; cbn; (split; [done |]).
    + right. eexists _, _. split; [done |]. split; [done |].
      by rewrite lookup_insert_eq.
    + by left.
  - unfold handleCreateOrder. rewrite E. split; [done | by left].
Qed.

(** X2. The promise of [handleCreateOrder] rejects, so that nothing is
    sent, in two cases and no other: there is no body to destructure
    ([undefined] or [null]); or name and items pass their check and the
    phone cannot be made a string for the pattern test (an object with a
    [toString] property of its own, or an array that holds one).  The
    reads of [items.length] and [phone.length] never throw. *)
Theorem order_route_rejections (l : link) (now : Z)
    (reqBody : value) (w : world) :
  (handleCreateOrder l now reqBody w).1 = Rejected
  ↔ reqBody = VUndef ∨ reqBody = VNull
    ∨ ∃ name phone items total,
        destructure reqBody = Done (name, phone, items, total)
        ∧ truthy name = true ∧ truthy phone = true
        ∧ nonempty_array items = true
        ∧ ToString phone = Thrown.
Proof.
  destruct (destructure reqBody) as [[[[name phone] items] total]|] eqn:E.
  - rewrite (order_table _ _ _ _ _ _ _ _ E).
    assert (reqBody ≠ VUndef ∧ reqBody ≠ VNull) as [N1 N2].
    { split; intros ->; discriminate. }
    destruct (truthy name) eqn:Tn, (truthy phone) eqn:Tp,
      (nonempty_array items) eqn:Ti; cbn [andb];
      try (split; [done | intros [? | [? | (? & ? & ? & ? & [= <- <- <- <-] & ?)]]];
             [done | done | intuition congruence]).
    unfold digits_only_test. destruct (ToString phone) as [s|] eqn:Hs.
    + split.
      * destruct (_ && long_enough phone); [by destruct l | done].
      * intros [? | [? | (? & ? & ? & ? & [= <- <- <- <-] & ?)]];
          [done | done | intuition congruence].
    + split; [| done]. intros _. right. right.
      by exists name, phone, items, total.
  - unfold handleCreateOrder. rewrite E. split; [| done]. intros _.
    apply destructure_thrown in E. tauto.
Qed.

(** X3. A request that is answered 201 when [insertOne] completes is
    answered 500 [Failed to save order] when [insertOne] throws, and then
    no order is written. *)
Theorem order_route_store_failure (now : Z) (reqBody : value) (w : world) :
  status_of (handleCreateOrder Up now reqBody w).1 = Some 201%nat →
  handleCreateOrder Down now reqBody w
  = (Reply 500 (BError "Failed to save order"), called (InsertOne "orders") w).
Proof.
  destruct (destructure reqBody) as [[[[name phone] items] total]|] eqn:E.
  - rewrite !(order_table _ _ _ _ _ _ _ _ E).
    destruct (_ && nonempty_array items); [| done].
    destruct (digits_only_test phone) as [ok|]; [| done].
    by destruct (ok && long_enough phone).
  - unfold handleCreateOrder. by rewrite E.
Qed.

(** X4. A stored order has the fields [_id], [name], [phone], [items],
    [total] and [createdAt] and no other: whatever else the request body
    carries is dropped, and name, phone and items are stored as sent. *)
Theorem stored_order_fields (l : link) (now : Z) (m : gmap string value)
    (w w' : world) (b : body) :
  handleCreateOrder l now (VObj m) w = (Reply 201 b, w') →
  ∃ d, orders w' = orders w ++ [d]
       ∧ dom d = order_fields
       ∧ d !! "name" = SVal <$> m !! "name"
       ∧ d !! "phone" = SVal <$> m !! "phone"
       ∧ d !! "items" = SVal <$> m !! "items".
Proof.
  rewrite (order_table _ _ _ _ _ _ _ _ (destructure_obj m)).
  destruct (m !! "name") as [name|] eqn:Hn; [| done].
  destruct (m !! "phone") as [phone|] eqn:Hp;
    [| by rewrite andb_false_r].
  destruct (m !! "items") as [items|] eqn:Hi;
    [| by rewrite andb_false_r].
  cbn [from_option id].
  destruct (_ && nonempty_array items); [| done].
  destruct (digits_only_test phone) as [ok|]; [| done].
  destruct (ok && long_enough phone); [| done].
  destruct l; [| done]. intros [= <- <-]. eexists. split; [done |].
  split; [| by unfold orderDoc; simplify_map_eq].
  unfold orderDoc, order_fields. rewrite !dom_insert_L, dom_empty_L.
  set_solver.
Qed.

(** X5. After an answer 201, [GET /orders] lists the earlier orders in
    their order, followed by the new one, whose [_id] is the [orderId] that
    was answered. *)
Theorem order_then_list (l : link) (now : Z) (reqBody : value)
    (w w' : world) (msg : string) (orderId : stored) :
  handleCreateOrder l now reqBody w = (Reply 201 (BSaved msg orderId), w') →
  ∃ d, (getOrders Up w').1 = Reply 200 (BDocs (orders w ++ [d]))
       ∧ d !! "_id" = Some orderId.
Proof.
  destruct (destructure reqBody) as [[[[name phone] items] total]|] eqn:E.
  - rewrite (order_table _ _ _ _ _ _ _ _ E).
    destruct (_ && nonempty_array items); [| done].
    destruct (digits_only_test phone) as [ok|]; [| done].
    destruct (ok && long_enough phone); [| done].
    destruct l; [| done]. intros [= <- <- <-]. eexists. split.
    + unfold getOrders. cbn [called orders]. by rewrite find_all.
    + by rewrite lookup_insert_eq.
  - unfold handleCreateOrder. by rewrite E.
Qed.

(** ** Phones that are not text *)

Lemma not_digits_with (a b : string) (c : ascii) :
  is_digit c = false →
  forallb is_digit (list_ascii_of_string (a +:+ String c b)) = false.
Proof.
  intros Hc. induction a as [|x a IH].
  - rewrite append_nil_l. cbn [list_ascii_of_string forallb]. by rewrite Hc.
  - rewrite append_cons. cbn [list_ascii_of_string forallb].
    by rewrite IH, andb_false_r.
Qed.

(** [Array.prototype.join]: the first element, a comma, the rest. *)
Lemma ToString_cons (x y : value) (r : list value) :
  ToString (VArr (x :: y :: r))
  = match match x with
          | VUndef | VNull => Done EmptyString
          | _ => ToString x
          end with
    | Thrown => Thrown
    | Done sx =>
        match ToString (VArr (y :: r)) with
        | Thrown => Thrown
        | Done sr => Done (sx +:+ "," +:+ sr)
        end
    end.
Proof. reflexivity. Qed.

(** The rendering of an array of two or more elements, when there is one,
    has a comma. *)
Lemma array_of_two_not_digits (x y : value) (r : list value) :
  digits_only_test (VArr (x :: y :: r)) ≠ Done true.
Proof.
  unfold digits_only_test.
  assert (ToString (VArr (x :: y :: r)) = Thrown
          ∨ ∃ a b, ToString (VArr (x :: y :: r)) = Done (a +:+ String "," b))
    as [-> | (a & b & ->)]; [| done |].
  { rewrite ToString_cons.
    destruct (match x with
              | VUndef | VNull => Done EmptyString
              | _ => ToString x
              end) as [sx|]; [| by left].
    destruct (ToString (VArr (y :: r))) as [sr|]; [| by left].
    right. by exists sx, sr. }
  unfold digits_only. by rewrite not_digits_with, andb_false_r.
Qed.

(** X6. Only a string or a number can pass as a phone: a request whose
    phone is an array, an object, a boolean, [null] or absent is never
    accepted, whatever the rest of the body.  It is answered 400 with the
    database left as it was; or, when the phone cannot be made a string
    for the pattern test, the promise of the handler rejects, the database
    again left as it was.  (An array of one digit string renders as digits
    but its length is 1; longer arrays render with commas.) *)
Theorem phone_must_be_text_or_number (l : link) (now : Z)
    (m : gmap string value) (w : world) :
  (∀ s, m !! "phone" ≠ Some (VStr s)) →
  (∀ n, m !! "phone" ≠ Some (VNum n)) →
  (∃ msg, handleCreateOrder l now (VObj m) w = (Reply 400 (BError msg), w))
  ∨ (handleCreateOrder l now (VObj m) w = (Rejected, w)
     ∧ ToString (default VUndef (m !! "phone")) = Thrown).
Proof.
  intros Hs Hn. rewrite (order_table _ _ _ _ _ _ _ _ (destructure_obj m)).
  destruct (_ && nonempty_array _); [| left; by eexists].
  destruct (digits_only_test (default VUndef (m !! "phone"))) as [ok|] eqn:Hd.
  - left.
    assert (ok && long_enough (default VUndef (m !! "phone")) = false) as ->;
      [| by eexists].
    destruct ok; [| done]. cbn [andb].
    destruct (m !! "phone") as [[| |[]|n|s|xs|o]|]; cbn [from_option id] in *;
      try done.
    + by destruct (Hn n).
    + by destruct (Hs s).
    + destruct xs as [|x [|y r]];
        [done | done | by apply array_of_two_not_digits in Hd].
    + unfold digits_only_test in Hd. cbn in Hd. by case_bool_decide.
  - right. split; [done |].
    unfold digits_only_test in Hd. by destruct (ToString _).
Qed.

(** ** The earlier handler *)

(** X7. The phone check is the only difference in behaviour between the
    two versions of [handleCreateOrder]: on every request either both give
    the same status and leave the same database (the wording of the 400
    differs), or the earlier one went on to insert where the current one
    stops at the phone: it refuses it with a 400, or its promise rejects
    because the phone cannot be made a string for the pattern test. *)
Theorem phone_check_is_the_only_change (l : link) (now : Z)
    (reqBody : value) (w : world) :
  let new := handleCreateOrder l now reqBody w in
  let old := Legacy.handleCreateOrder l now reqBody w in
  (status_of new.1 = status_of old.1 ∧ new.2 = old.2)
  ∨ ((new = (bad_phone, w)
      ∨ new = (Rejected, w)
        ∧ ∃ phone, get reqBody "phone" = Done phone
                   ∧ ToString phone = Thrown)
     ∧ ∃ name phone items total,
         destructure reqBody = Done (name, phone, items, total)
         ∧ old = inserting l now name phone items total w).
Proof.
  intros new old. subst new old.
  destruct (destructure reqBody) as [[[[name phone] items] total]|] eqn:E.
  - rewrite (order_table _ _ _ _ _ _ _ _ E), (legacy_table _ _ _ _ _ _ _ _ E).
    destruct (_ && nonempty_array items); [| by left].
    destruct (digits_only_test phone) as [ok|] eqn:Hd.
    + destruct (ok && long_enough phone); [by left |].
      right. split; [by left |]. by exists name, phone, items, total.
    + right. split; [| by exists name, phone, items, total].
      right. split; [done |]. exists phone. split.
      * unfold destructure in E. by repeat case_match; simplify_eq.
      * unfold digits_only_test in Hd. by destruct (ToString phone).
  - left. unfold handleCreateOrder, Legacy.handleCreateOrder. by rewrite E.
Qed.

(** ** The further order properties at sample requests *)

Lemma order_route_store_failure_witness :
  handleCreateOrder Down 1700000000000
    (VObj (order_with_phone (VStr "07123456789"))) seeded
  = (Reply 500 (BError "Failed to save order"),
     called (InsertOne "orders") seeded).
Proof.
  apply (order_route_store_failure 1700000000000
           (VObj (order_with_phone (VStr "07123456789"))) seeded).
  reflexivity.
Defined.

Lemma stored_order_fields_witness :
  ∃ d, orders (handleCreateOrder Up 1700000000000
                 (VObj order_with_coupon) seeded).2 = orders seeded ++ [d]
       ∧ dom d = order_fields
       ∧ d !! "coupon" = None.
Proof.
  destruct (stored_order_fields Up 1700000000000 order_with_coupon seeded
              (handleCreateOrder Up 1700000000000
                 (VObj order_with_coupon) seeded).2
              (BSaved "Order saved" (SOid 10)))
    as (d & H1 & H2 & _); [reflexivity |].
  exists d. split; [exact H1 |]. split; [exact H2 |].
  apply not_elem_of_dom. rewrite H2.
  apply (bool_decide_unpack _). vm_compute. reflexivity.
Defined.

Lemma order_then_list_witness :
  ∃ d, (getOrders Up (handleCreateOrder Up 1700000000000
                        (VObj (order_with_phone (VStr "07123456789")))
                        seeded).2).1
       = Reply 200 (BDocs (orders seeded ++ [d]))
       ∧ d !! "_id" = Some (SOid 10).
Proof.
  apply (order_then_list Up 1700000000000
           (VObj (order_with_phone (VStr "07123456789"))) seeded _
           "Order saved" (SOid 10)).
  reflexivity.
Defined.

Lemma phone_must_be_text_or_number_witness :
  (∃ msg,
     handleCreateOrder Up 1700000000000
       (VObj (order_with_phone (VArr [VStr "07123456789"]))) seeded
     = (Reply 400 (BError msg), seeded))
  ∨ (handleCreateOrder Up 1700000000000
       (VObj (order_with_phone (VArr [VStr "07123456789"]))) seeded
     = (Rejected, seeded)
     ∧ ToString (default VUndef
                   (order_with_phone (VArr [VStr "07123456789"]) !! "phone"))
       = Thrown).
Proof.
  apply (phone_must_be_text_or_number Up 1700000000000
           (order_with_phone (VArr [VStr "07123456789"])) seeded);
    intros x; vm_compute; discriminate.
Defined.

(** ** Trimming *)

Lemma trimStart_head (s : string) :
  trimStart s = EmptyString
  ∨ ∃ c r, trimStart s = String c r ∧ is_space c = false.
Proof.
  induction s as [|c s IH]; [by left |]. cbn [trimStart].
  destruct (is_space c) eqn:E; [done |]. right. by exists c, s.
Qed.

Lemma trimStart_empty (s : string) :
  trimStart s = EmptyString ↔ blank s = true.
Proof.
  unfold blank. induction s as [|c s IH]; [done |].
  cbn [trimStart list_ascii_of_string forallb].
  destruct (is_space c); [done |]. split; discriminate.
Qed.

Lemma trimEnd_head (c : ascii) (r : string) :
  is_space c = false → ∃ r', trimEnd (String c r) = String c r'.
Proof.
  intros Hc. cbn [trimEnd]. rewrite Hc. destruct (trimEnd r); eauto.
Qed.

Lemma trimEnd_idem (s : string) : trimEnd (trimEnd s) = trimEnd s.
Proof.
  induction s as [|c s IH]; [done |]. cbn [trimEnd].
  destruct (trimEnd s) as [|x r] eqn:E.
  - destruct (is_space c) eqn:Hc; [done |]. cbn [trimEnd]. by rewrite Hc.
  - change (trimEnd (String c (String x r)))
      with (match trimEnd (String x r) with
            | EmptyString =>
                if is_space c then EmptyString else String c EmptyString
            | r' => String c r'
            end).
    by rewrite IH.
Qed.

Lemma trim_blank (s : string) : trim s = EmptyString ↔ blank s = true.
Proof.
  rewrite <- trimStart_empty. unfold trim. split.
  - intros H. destruct (trimStart_head s) as [E | (c & r & E & Hc)]; [done |].
    rewrite E in H. destruct (trimEnd_head c r Hc) as [r' E'].
    by rewrite E' in H.
  - by intros ->.
Qed.

Lemma trim_idem (s : string) : trim (trim s) = trim s.
Proof.
  unfold trim.
  destruct (trimStart_head s) as [-> | (c & r & -> & Hc)]; [done |].
  destruct (trimEnd_head c r Hc) as [r' E].
  assert (trimStart (trimEnd (String c r)) = trimEnd (String c r)) as ->.
  { rewrite E. cbn [trimStart]. by rewrite Hc. }
  apply trimEnd_idem.
Qed.

(** ** Further properties of the search route *)

Lemma blank_is_falsy_term (s : string) :
  truthy (VStr (trim s)) = negb (blank s).
Proof.
  cbn [truthy]. f_equal. apply eq_true_iff_eq.
  by rewrite is_empty_true, trim_blank.
Qed.

(** X8. When the store call throws, [GET /search] behaves in two ways.
    With [q] absent or blank the [find] is outside the [try] and the
    promise of the handler rejects: no 500 is sent.  With any other
    (modelled) term the error is caught and the answer is 500
    [Search failed]. *)
Theorem search_store_failure (s : string) (w : world) :
  getSearch Down VUndef w = Some (Rejected, called (Find "lessons") w)
  ∧ (blank s = true →
     getSearch Down (VStr s) w = Some (Rejected, called (Find "lessons") w))
  ∧ (blank s = false →
     is_Some (compile (toLowerCase (trim s))) →
     getSearch Down (VStr s) w
     = Some (Reply 500 (BError "Search failed"), called (Find "lessons") w)).
Proof.
  split; [done |]. split.
  - intros Hb. unfold getSearch.
    assert (truthy (VStr (trim (if truthy (VStr s) then s else ""))) = false)
      as Ht.
    { destruct (truthy (VStr s)); [| done].
      by rewrite blank_is_falsy_term, Hb. }
    destruct (truthy (VStr s)); by rewrite Ht.
  - intros Hb [re Hre]. unfold getSearch.
    assert (truthy (VStr s) = true) as ->.
    { destruct s; [done | done]. }
    by rewrite blank_is_falsy_term, Hb, Hre.
Qed.

(** X9. White space around the term does not matter: [GET /search]
    answers a term and the same term trimmed in the same way. *)
Theorem search_ignores_padding (l : link) (s : string) (w : world) :
  getSearch l (VStr s) w = getSearch l (VStr (trim s)) w.
Proof.
  unfold getSearch.
  destruct (blank s) eqn:Hb.
  - assert (trim s = EmptyString) as -> by by apply trim_blank.
    destruct (truthy (VStr s)); [| done].
    assert (trim s = EmptyString) as -> by by apply trim_blank.
    done.
  - assert (truthy (VStr s) = true) as -> by by destruct s.
    assert (truthy (VStr (trim s)) = true) as Ht
      by by rewrite blank_is_falsy_term, Hb.
    rewrite Ht. by rewrite trim_idem, Ht.
Qed.

Lemma filter_sublist (f : doc → bool) (c : list doc) :
  List.filter f c `sublist_of` c.
Proof.
  induction c as [|d c IH]; [constructor |]. cbn [List.filter].
  destruct (f d); by constructor.
Qed.

(** X10. [GET /search] only reads: whatever it answers, lessons and orders
    are as before, it makes exactly one store call, and a list it returns
    is a selection of the lessons in their stored order. *)
Theorem search_only_reads (l : link) (q : value) (w w' : world)
    (r : response) :
  getSearch l q w = Some (r, w') →
  lessons w' = lessons w ∧ orders w' = orders w
  ∧ (w' = w ∨ w' = called (Find "lessons") w)
  ∧ ∀ ds, r = Reply 200 (BDocs ds) → ds `sublist_of` lessons w.
Proof.
  unfold getSearch.
  destruct (if truthy q then q else VStr "") as [| | | |s| |];
    try (intros [= <- <-]; repeat split; auto; done).
  destruct (truthy (VStr (trim s))); cbn [negb].
  - destruct (compile _) as [re|]; [| done]. cbn [mbind option_bind].
    destruct l; cbn [find]; intros [= <- <-]; repeat split; auto;
      try done.
    intros ds [= <-]. apply filter_sublist.
  - destruct l; cbn [find]; intros [= <- <-]; repeat split; auto; try done.
    intros ds [= <-]. apply filter_sublist.
Qed.

Lemma search_store_failure_witness :
  getSearch Down (VStr "   ") seeded
  = Some (Rejected, called (Find "lessons") seeded)
  ∧ getSearch Down (VStr " hist ") seeded
    = Some (Reply 500 (BError "Search failed"),
            called (Find "lessons") seeded).
Proof.
  split.
  - apply (search_store_failure "   " seeded). reflexivity.
  - apply (search_store_failure " hist " seeded); [reflexivity |].
    vm_compute. eexists. reflexivity.
Defined.

Lemma search_only_reads_witness :
  lessons (called (Find "lessons") seeded) = lessons seeded
  ∧ List.filter (matches (search_query (lits "art") NaN)) (lessons seeded)
    `sublist_of` lessons seeded.
Proof.
  destruct (search_only_reads Up (VStr "Art") seeded
              (called (Find "lessons") seeded)
              (Reply 200 (BDocs (List.filter
                 (matches (search_query (lits "art") NaN))
                 (lessons seeded)))))
    as (H1 & _ & _ & H4); [reflexivity |].
  split; [exact H1 | by apply H4].
Defined.

(** ** Further properties of the update route *)

(** X11. [PUT /lessons/:id] always answers, and with one of four replies:
    400 without touching anything; 404 or 200 when the store call
    completes; 500 when it throws.  Only the 200 changes the lessons. *)
Theorem update_answers (l : link) (idParam : string) (reqBody : value)
    (w w' : world) (r : response) :
  putLesson l idParam reqBody w = Some (r, w') →
  (r = Reply 400 (BError "Lesson id must be a number") ∧ w' = w)
  ∨ (r = Reply 404 (BError "Lesson not found") ∧ l = Up
     ∧ w' = called (UpdateOne "lessons") w)
  ∨ (r = Reply 500 (BError "Failed to update lesson") ∧ l = Down
     ∧ w' = called (UpdateOne "lessons") w)
  ∨ (r = Reply 200 (BMessage "Lesson updated") ∧ l = Up
     ∧ orders w' = orders w
     ∧ calls w' = UpdateOne "lessons" :: calls w).
Proof.
  destruct (isNaN (parseInt10 idParam)) eqn:Hn.
  - unfold putLesson. rewrite Hn. intros [= <- <-]. by left.
  - destruct (set_operand (updateData reqBody)) as [patch|] eqn:Hp.
    + rewrite (putLesson_parsed _ _ _ patch) by done.
      destruct l; cbn [updateOne].
      * destruct (update_first _ _ _); cbn; intros [= <- <-];
          [by do 3 right | by right; left].
      * intros [= <- <-]. by right; right; left.
    + unfold putLesson. by rewrite Hn, Hp.
Qed.

Lemma set_fields_idem (patch : gmap string value) (d : doc) :
  set_fields patch (set_fields patch d) = set_fields patch d.
Proof.
  unfold set_fields. by rewrite (assoc_L (∪)), (idemp_L (∪)).
Qed.

Lemma has_id_same (n : number) (d d' : doc) :
  d' !! "id" = d !! "id" → has_id n d → has_id n d'.
Proof. unfold has_id. by intros ->. Qed.

Lemma no_match_pre (n : number) (c : list doc) :
  (∀ d, d ∈ c → ¬ has_id n d) →
  Forall (λ d, matches (FEq "id" n) d = false) c.
Proof.
  intros H. apply Forall_forall. intros d Hd.
  apply not_true_is_false. rewrite matches_id. by apply H.
Qed.

(** An answer 200 means that the first lesson having the id was patched
    where it stands. *)
Lemma updated_first (idParam : string) (reqBody : value)
    (patch : gmap string value) (w w' : world) (b : body) :
  set_operand (updateData reqBody) = Some patch →
  putLesson Up idParam reqBody w = Some (Reply 200 b, w') →
  isNaN (parseInt10 idParam) = false
  ∧ b = BMessage "Lesson updated"
  ∧ ∃ pre d post,
      lessons w = pre ++ d :: post
      ∧ Forall (λ d, matches (FEq "id" (parseInt10 idParam)) d = false) pre
      ∧ has_id (parseInt10 idParam) d
      ∧ w' = with_lessons (pre ++ set_fields patch d :: post)
               (called (UpdateOne "lessons") w).
Proof.
  intros Hp. destruct (isNaN (parseInt10 idParam)) eqn:Hn.
  { unfold putLesson. by rewrite Hn. }
  rewrite (putLesson_parsed _ _ _ patch) by done. cbn [updateOne].
  destruct (update_first _ _ _) as [ls|] eqn:Hu; cbn; [| done].
  intros [= <- <-]. split; [done |]. split; [done |].
  apply update_first_some in Hu as (pre & d & post & Hw & -> & Hpre & Hd).
  exists pre, d, post. repeat split; try done. by apply matches_id.
Qed.

Lemma update_at (idParam : string) (reqBody : value)
    (patch : gmap string value) (w : world) (pre post : list doc) (d : doc) :
  isNaN (parseInt10 idParam) = false →
  set_operand (updateData reqBody) = Some patch →
  lessons w = pre ++ d :: post →
  Forall (λ d, matches (FEq "id" (parseInt10 idParam)) d = false) pre →
  has_id (parseInt10 idParam) d →
  putLesson Up idParam reqBody w
  = Some (Reply 200 (BMessage "Lesson updated"),
          with_lessons (pre ++ set_fields patch d :: post)
            (called (UpdateOne "lessons") w)).
Proof.
  intros Hn Hp Hw Hpre Hd.
  rewrite (putLesson_parsed _ _ _ patch) by done. cbn [updateOne].
  rewrite Hw, update_first_at; [done | done | by apply matches_id].
Qed.

(** X12. Repeating an update is harmless: when the patch does not name
    [id], sending the same [PUT] again after a 200 is answered 200 again
    and leaves the lessons exactly as the first one left them. *)
Theorem update_twice (idParam : string) (reqBody : value)
    (patch : gmap string value) (w w1 : world) (b : body) :
  set_operand (updateData reqBody) = Some patch →
  patch !! "id" = None →
  putLesson Up idParam reqBody w = Some (Reply 200 b, w1) →
  ∃ w2, putLesson Up idParam reqBody w1 = Some (Reply 200 b, w2)
        ∧ lessons w2 = lessons w1.
Proof.
  intros Hp Hid H.
  destruct (updated_first _ _ _ _ _ _ Hp H)
    as (Hn & -> & pre & d & post & Hw & Hpre & Hd & ->).
  eexists. split.
  - apply (update_at _ _ patch _ pre post (set_fields patch d)); try done.
    eapply has_id_same; [| exact Hd]. by apply set_fields_other.
  - cbn [with_lessons lessons called]. by rewrite set_fields_idem.
Qed.

(** X13. The patch is not checked, so it can rewrite the business key:
    when exactly one lesson has the id and the patch sets [id] to a value
    that is neither that number nor an array holding it, the update is
    answered 200 and the same request sent again is answered 404. *)
Theorem update_can_move_the_id (idParam : string) (reqBody v : value)
    (patch : gmap string value) (w : world) (pre post : list doc) (d : doc) :
  isNaN (parseInt10 idParam) = false →
  set_operand (updateData reqBody) = Some patch →
  patch !! "id" = Some v →
  ¬ number_in (parseInt10 idParam) (Some (SVal v)) →
  lessons w = pre ++ d :: post →
  has_id (parseInt10 idParam) d →
  (∀ d', d' ∈ pre ++ post → ¬ has_id (parseInt10 idParam) d') →
  ∃ w1,
    putLesson Up idParam reqBody w
    = Some (Reply 200 (BMessage "Lesson updated"), w1)
    ∧ putLesson Up idParam reqBody w1
      = Some (Reply 404 (BError "Lesson not found"),
              called (UpdateOne "lessons") w1).
Proof.
  intros Hn Hp Hv Hne Hw Hd Hothers.
  eexists. split.
  - apply (update_at _ _ patch _ pre post d); try done.
    apply no_match_pre. intros d' Hd'. apply Hothers, elem_of_app. by left.
  - rewrite (putLesson_parsed _ _ _ patch) by done.
    cbn [updateOne with_lessons lessons called].
    assert (update_first (FEq "id" (parseInt10 idParam)) patch
              (pre ++ set_fields patch d :: post) = None) as ->; [| done].
    apply update_first_none, no_match_pre. intros d' Hd'.
    apply elem_of_app in Hd' as [Hd' | Hd'].
    + apply Hothers, elem_of_app. by left.
    + apply elem_of_cons in Hd' as [-> | Hd'].
      * unfold has_id. by rewrite (set_fields_named _ _ _ _ Hv).
      * apply Hothers, elem_of_app. by right.
Qed.

Lemma trimStart_blank_app (ws s : string) :
  blank ws = true → trimStart (ws +:+ s) = trimStart s.
Proof.
  unfold blank. induction ws as [|c ws IH]; [done |].
  cbn [list_ascii_of_string forallb]. intros [Hc Hws]%andb_true_iff.
  rewrite append_cons. cbn [trimStart]. rewrite Hc. by apply IH.
Qed.

(** X15. The id segment is read leniently: white space in front is
    skipped and everything from the first character that is not a digit is
    ignored, so [3.7], [3e5], [3-4] and [ 3] all address lesson 3. *)
Theorem id_is_read_leniently (ws ds rest : string) (l : link)
    (reqBody : value) (w : world) :
  blank ws = true →
  ds ≠ EmptyString →
  forallb is_digit (list_ascii_of_string ds) = true →
  match rest with
  | EmptyString => True
  | String c _ => is_digit c = false
  end →
  putLesson l (ws +:+ ds +:+ rest) reqBody w = putLesson l ds reqBody w.
Proof.
  intros Hws Hne Hds Hrest.
  assert (parseInt10 (ws +:+ ds +:+ rest) = parseInt10 ds) as E.
  { transitivity (parseInt10 (ds +:+ rest)).
    - unfold parseInt10. by rewrite trimStart_blank_app.
    - rewrite parseInt10_prefix by done.
      rewrite <- (append_empty_r ds) at 2. by rewrite parseInt10_prefix. }
  unfold putLesson. by rewrite E.
Qed.

Lemma update_twice_witness :
  ∃ w2, putLesson Up "3" (VObj three_spaces) seeded_then_patched
        = Some (Reply 200 (BMessage "Lesson updated"), w2)
        ∧ lessons w2 = lessons seeded_then_patched.
Proof.
  apply (update_twice "3" (VObj three_spaces) three_spaces seeded);
    reflexivity.
Defined.

Lemma update_can_move_the_id_witness :
  ∃ w1,
    putLesson Up "3" (VObj new_id) seeded
    = Some (Reply 200 (BMessage "Lesson updated"), w1)
    ∧ putLesson Up "3" (VObj new_id) w1
      = Some (Reply 404 (BError "Lesson not found"),
              called (UpdateOne "lessons") w1).
Proof.
  apply (update_can_move_the_id "3" (VObj new_id) (int 99) new_id seeded
           (List.firstn 2 (lessons seeded))
           (List.skipn 3 (lessons seeded))
           (<["_id" := SOid 2]>
              (as_stored (lesson 3 "Biology" "Golders Green" 90 5
                 "fa-solid fa-seedling"
                 "https://img.icons8.com/color/240/dna-helix.png"))));
    [reflexivity | reflexivity | reflexivity | | reflexivity | |].
  - intros H%number_field. vm_compute in H. discriminate.
  - left. exists (Fin 3 0). split; reflexivity.
  - apply absent_id. reflexivity.
Defined.

Lemma id_is_read_leniently_witness :
  putLesson Up " 3.7" (VObj three_spaces) seeded
  = putLesson Up "3" (VObj three_spaces) seeded.
Proof.
  apply (id_is_read_leniently " " "3" ".7" Up (VObj three_spaces) seeded);
    [reflexivity | discriminate | reflexivity | reflexivity].
Defined.

(** ** Further properties of the seeder *)

(** X16. The seeder never touches the orders.  Its exit status is 1
    exactly when [MONGODB_URI] is unset or empty, or the client cannot be
    built from it ([new MongoClient(uri)] stands outside the [try]), and
    then it makes no store call and leaves the database as it is; in every
    other run the status is 0. *)
Theorem seed_exit_and_frame (e : env) (w : world) :
  orders (seed e w).2 = orders w
  ∧ (((truthy (MONGODB_URI e) = false ∨ client_state e = BadString)
      ∧ seed e w = (1, w))
     ∨ (truthy (MONGODB_URI e) = true ∧ client_state e ≠ BadString
        ∧ (seed e w).1 = 0)).
Proof.
  assert (orders (try_block e w).2 = orders w) as Ho.
  { unfold try_block. destruct (connects e); cbn [negb]; [| done].
    destruct (delete_fault e) as [k|]; cbn; [done |].
    by destruct (insert_fault e). }
  unfold seed. destruct (truthy (MONGODB_URI e)); cbn [negb].
  - destruct (client_state e) eqn:Hc.
    + split; [done |]. left. split; [by right | done].
    + destruct (try_block e w). split; [done |]. by right.
    + destruct (try_block e w). split; [done |]. by right.
  - split; [done |]. left. split; [by left | done].
Qed.

(** X17. When [deleteMany] throws, [insertMany] is not called: the run
    ends with the one store call made, none of the catalog inserted, and
    exit status 0. *)
Theorem failed_wipe_skips_insert (e : env) (w : world) (k : nat) :
  truthy (MONGODB_URI e) = true → connects e = true →
  delete_fault e = Some k →
  (seed e w).1 = 0
  ∧ calls (seed e w).2 = DeleteMany "lessons" :: calls w
  ∧ lessons (seed e w).2 `sublist_of` lessons w.
Proof.
  intros Hu Hc Hd. rewrite seed_connected by done.
  unfold try_block. rewrite Hc, Hd.
  cbn. repeat split; try done. apply sublist_drop.
Qed.

(** X18. The wipe and the insert are not one transaction: when
    [insertMany] throws after [k] documents, the old lessons are gone, the
    collection holds the first [k] catalog records only (none for
    [k = 0]), and the exit status is still 0. *)
Theorem failed_insert_leaves_a_prefix (e : env) (w : world) (k : nat) :
  truthy (MONGODB_URI e) = true → connects e = true →
  delete_fault e = None → insert_fault e = Some k →
  (seed e w).1 = 0
  ∧ strip_id <$> lessons (seed e w).2 = as_stored <$> List.firstn k catalog.
Proof.
  intros Hu Hc Hd Hi. rewrite seed_connected by done.
  unfold try_block. rewrite Hc, Hd, Hi.
  cbn [negb deleteMany_all insertMany fst snd lessons with_lessons
       with_next_oid called app].
  split; [done |]. apply with_ids_strip.
  apply Forall_forall. intros d Hd'.
  pose proof catalog_no_id as Hall. rewrite Forall_forall in Hall.
  apply Hall. eapply elem_of_sublist; [exact Hd' | apply sublist_take].
Qed.

(** X19. Reseeding is idempotent up to the generated ids: a second
    successful run leaves the same records as the first. *)
Theorem reseeding_twice (e1 e2 : env) (w : world) :
  healthy e1 → healthy e2 →
  strip_id <$> lessons (seed e2 (seed e1 w).2).2
  = strip_id <$> lessons (seed e1 w).2.
Proof.
  intros (U1 & C1 & D1 & I1) (U2 & C2 & D2 & I2).
  rewrite (seed_success e2) by done. rewrite (seed_success e1) by done.
  cbn [snd lessons next_oid].
  by rewrite !with_ids_strip by apply catalog_no_id.
Qed.

Lemma lesson_id_field (oid : N) (i : Z) (s l : string) (p sp : Z)
    (ic im : string) (z : Z) :
  matches (FEq "id" (Fin z 0))
    (<["_id" := SOid oid]> (SVal <$> lesson i s l p sp ic im))
  = (i =? z).
Proof.
  cbn [matches]. unfold lesson.
  rewrite lookup_insert_ne by done.
  rewrite lookup_fmap, lookup_insert_eq. cbn. by rewrite !Z.mul_1_r.
Qed.

(** X20. After a successful seeding each of the ids 1 to 10 addresses a
    lesson and no other integer does: [PUT /lessons/:id] with an id that
    parses to [z] is answered 200 when [1 <= z <= 10] and 404
    otherwise. *)
Theorem seeded_ids (e : env) (w : world) (idParam : string)
    (reqBody : value) (z : Z) :
  healthy e →
  parseInt10 idParam = Fin z 0 →
  is_Some (set_operand (updateData reqBody)) →
  ∃ r w',
    putLesson Up idParam reqBody (seed e w).2 = Some (r, w')
    ∧ status_of r
      = Some (if bool_decide (1 ≤ z ≤ 10) then 200%nat else 404%nat).
Proof.
  intros (Hu & Hc & Hd & Hi) Hz [patch Hp].
  rewrite (seed_success e) by done. cbn [snd].
  rewrite (putLesson_parsed _ _ _ patch) by (by rewrite ?Hz).
  rewrite Hz. cbn [updateOne lessons called].
  unfold catalog. cbn [with_ids update_first].
  rewrite !lesson_id_field.
  repeat match goal with
         | |- context [?i =? z] =>
             destruct (Z.eqb_spec i z);
             [ eexists _, _; split; [reflexivity |];
               cbn [status_of]; rewrite bool_decide_eq_true_2 by lia;
               reflexivity
             | ]
         end.
  eexists _, _. split; [reflexivity |].
  cbn [status_of]. rewrite bool_decide_eq_false_2 by lia. reflexivity.
Qed.

Lemma failed_wipe_skips_insert_witness :
  let e := Env (VStr "mongodb://localhost:27017") Connected (Some 4%nat) None in
  (seed e seeded).1 = 0
  ∧ calls (seed e seeded).2 = [DeleteMany "lessons"]
  ∧ lessons (seed e seeded).2 `sublist_of` lessons seeded.
Proof.
  intros e.
  apply (failed_wipe_skips_insert e seeded 4); reflexivity.
Defined.

Lemma failed_insert_leaves_a_prefix_witness :
  let e := Env (VStr "mongodb://localhost:27017") Connected None (Some 0%nat) in
  (seed e seeded).1 = 0
  ∧ strip_id <$> lessons (seed e seeded).2 = [].
Proof.
  intros e.
  apply (failed_insert_leaves_a_prefix e seeded 0); reflexivity.
Defined.

Lemma reseeding_twice_witness :
  strip_id <$> lessons (seed good_env (seed good_env seeded).2).2
  = strip_id <$> lessons (seed good_env seeded).2.
Proof.
  apply (reseeding_twice good_env good_env seeded);
    repeat split; reflexivity.
Defined.

Lemma seeded_ids_witness :
  ∃ r w',
    putLesson Up "11" (VObj three_spaces) (seed good_env seeded).2
    = Some (r, w')
    ∧ status_of r = Some 404%nat.
Proof.
  apply (seeded_ids good_env seeded "11" (VObj three_spaces) 11);
    [repeat split; reflexivity | reflexivity | by eexists].
Defined.

(** ** Phones that are numbers *)

(** Dropping trailing zeros keeps the number. *)
Lemma strip_zeros_value (fuel : nat) (m e s e' : Z) :
  strip_zeros fuel m e = (s, e') → e ≤ e' ∧ m = s * 10 ^ (e' - e).
Proof.
  revert m e. induction fuel as [|fuel IH]; intros m e; cbn [strip_zeros].
  - intros [= -> ->]. rewrite Z.sub_diag. lia.
  - destruct ((m mod 10 =? 0) && negb (m =? 0)) eqn:E.
    + intros H. apply IH in H as [Hle Hm].
      apply andb_true_iff in E as [E _]. apply Z.eqb_eq in E.
      split; [lia |].
      replace (e' - e) with (Z.succ (e' - (e + 1))) by lia.
      rewrite Z.pow_succ_r by lia.
      rewrite (Z.div_mod m 10) by lia. rewrite E, Hm. lia.
    + intros [= -> ->]. rewrite Z.sub_diag. lia.
Qed.

Lemma not_digits_app (a b : string) :
  forallb is_digit (list_ascii_of_string b) = false →
  forallb is_digit (list_ascii_of_string (a +:+ b)) = false.
Proof.
  intros Hb. induction a as [|x a IH]; [done |].
  rewrite append_cons. cbn [list_ascii_of_string forallb].
  by rewrite IH, andb_false_r.
Qed.

Lemma not_digits_lead (p b : string) :
  forallb is_digit (list_ascii_of_string p) = false →
  forallb is_digit (list_ascii_of_string (p +:+ b)) = false.
Proof.
  induction p as [|x p IH]; [done |].
  rewrite append_cons. cbn [list_ascii_of_string forallb].
  destruct (is_digit x); [| done]. cbn [andb]. apply IH.
Qed.

(** The rendering of a positive number is made of digits only when no
    negative exponent is left after the trailing zeros are dropped. *)
Lemma positive_digits (m e : Z) :
  forallb is_digit (list_ascii_of_string (positive_toString m e)) = true →
  0 ≤ (strip_zeros (S (Z.to_nat (Z.log2 m))) m e).2.
Proof.
  unfold positive_toString.
  destruct (strip_zeros _ m e) as [s e']. cbn [snd].
  set (ds := digits_of s). set (k := Z.of_nat (String.length ds)).
  destruct ((k <=? k + e') && (k + e' <=? 21)) eqn:B1.
  { intros _. apply andb_true_iff in B1 as [B1 _].
    apply Z.leb_le in B1. lia. }
  assert (∀ a b, forallb is_digit
                   (list_ascii_of_string (a +:+ "." +:+ b)) = false) as Hdot.
  { intros a b. by apply not_digits_app, not_digits_lead. }
  destruct ((0 <? k + e') && (k + e' <=? 21)).
  { intros H. by rewrite Hdot in H. }
  destruct ((-6 <? k + e') && (k + e' <=? 0)).
  { intros H. by rewrite not_digits_lead in H. }
  assert (∀ a x,
            forallb is_digit
              (list_ascii_of_string
                 (a +:+ (if x <? 0 then "e-" else "e+")
                    +:+ digits_of (Z.abs x)))
            = false) as Hex.
  { intros a x. apply not_digits_app, not_digits_lead.
    by destruct (x <? 0). }
  destruct (k =? 1); intros H.
  - by rewrite Hex in H.
  - by rewrite Hdot in H.
Qed.

(** A number whose rendering is made of digits is a non-negative
    integer. *)
Lemma digits_number_is_integer (n : number) :
  digits_only (Number_toString n) = true →
  ∃ z, 0 ≤ z ∧ num_eqb n (Fin z 0) = true.
Proof.
  unfold digits_only. intros [_ H]%andb_true_iff.
  destruct n as [|[]|m e]; try done. cbn [Number_toString] in H.
  destruct (m =? 0) eqn:E0.
  { apply Z.eqb_eq in E0 as ->. exists 0. split; [done |].
    cbn. by rewrite Z.eqb_refl. }
  destruct (m <? 0) eqn:E1.
  { by rewrite not_digits_lead in H. }
  apply Z.eqb_neq in E0. apply Z.ltb_ge in E1.
  apply positive_digits in H.
  destruct (strip_zeros _ m e) as [s e'] eqn:Hs. cbn [snd] in H.
  apply strip_zeros_value in Hs as [Hle Hm].
  exists (s * 10 ^ e'). split.
  - assert (0 < 10 ^ e') by (apply Z.pow_pos_nonneg; lia).
    assert (0 < 10 ^ (e' - e)) by (apply Z.pow_pos_nonneg; lia). nia.
  - cbn [num_eqb align]. apply Z.eqb_eq.
    destruct (Z.min_spec e 0) as [[Hlt ->] | [Hge ->]].
    + rewrite Z.sub_diag, Z.pow_0_r, Z.mul_1_r, Hm.
      rewrite <- Z.mul_assoc, <- Z.pow_add_r by lia.
      by replace (e' + (0 - e)) with (e' - e) by lia.
    + rewrite Z.sub_0_r, Z.pow_0_r, Z.mul_1_r, Hm.
      rewrite <- Z.mul_assoc, <- Z.pow_add_r by lia.
      by replace (e' - e + e) with e' by lia.
Qed.

(** X21. A phone sent as a number passes only if it is a positive
    integer: a request whose numeric phone is zero, negative, fractional,
    [NaN] or infinite is answered 400. *)
Theorem numeric_phone_must_be_a_positive_integer (l : link) (now : Z)
    (m : gmap string value) (n : number) (w : world) :
  m !! "phone" = Some (VNum n) →
  (∀ z, 0 < z → num_eqb n (Fin z 0) = false) →
  ∃ msg, handleCreateOrder l now (VObj m) w = (Reply 400 (BError msg), w).
Proof.
  intros Hp Hn. rewrite (order_table _ _ _ _ _ _ _ _ (destructure_obj m)).
  rewrite Hp. cbn [from_option id].
  destruct (truthy (VNum n)) eqn:Tn;
    [| rewrite andb_false_r; by eexists].
  destruct (_ && nonempty_array _); [| by eexists].
  unfold digits_only_test. cbn [ToString].
  destruct (digits_only (Number_toString n)) eqn:Hd; [| by eexists].
  exfalso. apply digits_number_is_integer in Hd as (z & Hz & He).
  destruct (decide (z = 0)) as [-> | Hz0].
  - destruct n as [|[]|x e]; try done. cbn in Tn, He.
    apply negb_true_iff, Z.eqb_neq in Tn. apply Z.eqb_eq in He.
    assert (0 < 10 ^ (e - Z.min e 0)) by (apply Z.pow_pos_nonneg; lia).
    nia.
  - rewrite Hn in He by lia. done.
Qed.

Lemma numeric_phone_must_be_a_positive_integer_witness :
  ∃ msg,
    handleCreateOrder Up 1700000000000
      (VObj (order_with_phone (VNum (Fin 71234567895 (-1))))) seeded
    = (Reply 400 (BError msg), seeded).
Proof.
  apply (numeric_phone_must_be_a_positive_integer Up 1700000000000
           (order_with_phone (VNum (Fin 71234567895 (-1))))
           (Fin 71234567895 (-1)) seeded); [reflexivity |].
  intros z Hz. cbn [num_eqb align]. apply Z.eqb_neq.
  change (Z.min (-1) 0) with (-1). change (10 ^ (-1 - -1)) with 1.
  change (10 ^ (0 - -1)) with 10. lia.
Defined.

(** ** The routes together *)

Lemma update_answers_witness :
  let r := Reply 500 (BError "Failed to update lesson") in
  let w' := called (UpdateOne "lessons") seeded in
  (r = Reply 400 (BError "Lesson id must be a number") ∧ w' = seeded)
  ∨ (r = Reply 404 (BError "Lesson not found") ∧ Down = Up
     ∧ w' = called (UpdateOne "lessons") seeded)
  ∨ (r = Reply 500 (BError "Failed to update lesson") ∧ Down = Down
     ∧ w' = called (UpdateOne "lessons") seeded)
  ∨ (r = Reply 200 (BMessage "Lesson updated") ∧ Down = Up
     ∧ orders w' = orders seeded
     ∧ calls w' = UpdateOne "lessons" :: calls seeded).
Proof.
  intros r w'.
  apply (update_answers Down "3" (VObj three_spaces) seeded w' r).
  reflexivity.
Defined.

Lemma put_effect (l : link) (idParam : string) (reqBody : value)
    (w w' : world) (r : response) :
  putLesson l idParam reqBody w = Some (r, w') →
  orders w' = orders w ∧ next_oid w' = next_oid w
  ∧ length (lessons w') = length (lessons w).
Proof.
  destruct (isNaN (parseInt10 idParam)) eqn:Hn.
  - unfold putLesson. rewrite Hn. by intros [= <- <-].
  - destruct (set_operand (updateData reqBody)) as [patch|] eqn:Hp.
    + rewrite (putLesson_parsed _ _ _ patch) by done.
      destruct l; cbn [updateOne]; [| by intros [= <- <-]].
      destruct (update_first _ _ _) as [ls|] eqn:Hu; cbn;
        intros [= <- <-]; [| done].
      apply update_first_some in Hu as (pre & d & post & -> & -> & _).
      cbn. by rewrite !length_app.
    + unfold putLesson. by rewrite Hn, Hp.
Qed.

Lemma search_effect (l : link) (q : value) (w w' : world) (r : response) :
  getSearch l q w = Some (r, w') →
  orders w' = orders w ∧ next_oid w' = next_oid w
  ∧ lessons w' = lessons w.
Proof.
  unfold getSearch.
  destruct (if truthy q then q else VStr "") as [| | | |s| |];
    try by intros [= <- <-].
  destruct (truthy (VStr (trim s))); cbn [negb].
  - destruct (compile _) as [re|]; [| done]. cbn [mbind option_bind].
    by destruct l; cbn [find]; intros [= <- <-].
  - by destruct l; cbn [find]; intros [= <- <-].
Qed.

Lemma long_enough_str (s : string) :
  long_enough (VStr s) = negb (bool_decide (String.length s < 8)%nat).
Proof.
  unfold long_enough.
  change (get (VStr s) "length")
    with (Done (VNum (of_nat (String.length s)))).
  cbv iota. by rewrite length_lt_8.
Qed.

(** A phone that passed both checks is a string of at least 8 digits or a
    number that renders as digits. *)
Lemma passed_phone (phone : value) :
  truthy phone = true → digits_only_test phone = Done true →
  long_enough phone = true → passable_phone phone.
Proof.
  intros Tp Hd Hl. destruct phone as [| |[]|n|s|xs|o]; try done.
  - right. exists n. repeat split; [done |].
    unfold digits_only_test in Hd. cbn [ToString] in Hd. by injection Hd.
  - left. exists s. split; [done |].
    unfold digits_only_test in Hd. cbn [ToString] in Hd. injection Hd as Hd.
    split; [done |]. rewrite long_enough_str in Hl.
    apply negb_true_iff, bool_decide_eq_false in Hl. lia.
  - destruct xs as [|x [|y r]];
      [done | done | by apply array_of_two_not_digits in Hd].
  - unfold digits_only_test in Hd. cbn in Hd. by case_bool_decide.
Qed.

(** What the order route leaves behind, with the fields it read. *)
Lemma order_step (l : link) (now : Z) (reqBody : value) (w : world) :
  let w' := (handleCreateOrder l now reqBody w).2 in
  lessons w' = lessons w
  ∧ (orders w' = orders w ∧ (next_oid w' = next_oid w)
     ∨ ∃ name phone items total,
         truthy name = true ∧ passable_phone phone
         ∧ nonempty_array items = true
         ∧ orders w'
           = orders w ++ [<["_id" := SOid (next_oid w)]>
                            (orderDoc name phone items total now)]
         ∧ next_oid w' = N.succ (next_oid w)).
Proof.
  intros w'. subst w'.
  destruct (destructure reqBody) as [[[[name phone] items] total]|] eqn:E.
  - rewrite (order_table _ _ _ _ _ _ _ _ E).
    destruct (truthy name) eqn:Tn; [| split; [done | by left]].
    destruct (truthy phone) eqn:Tp; [| split; [done | by left]].
    destruct (nonempty_array items) eqn:Ti; [| split; [done | by left]].
    cbn [andb].
    destruct (digits_only_test phone) as [[]|] eqn:Hd;
      [| split; [done | by left] ..].
    destruct (long_enough phone) eqn:Hl; [| split; [done | by left]].
    destruct l; cbn; (split; [done |]); [| by left].
    right. exists name, phone, items, total.
    repeat split; try done. by apply passed_phone.
  - unfold handleCreateOrder. rewrite E. split; [done | by left].
Qed.

Lemma serve_step (l : link) (now : Z) (rq : request) (w w' : world)
    (r : response) :
  serve l now rq w = Some (r, w') →
  length (lessons w') = length (lessons w)
  ∧ (next_oid w ≤ next_oid w')%N
  ∧ (orders w' = orders w
     ∨ ∃ name phone items total ms oid,
         truthy name = true ∧ passable_phone phone
         ∧ nonempty_array items = true
         ∧ orders w'
           = orders w ++ [<["_id" := SOid oid]>
                            (orderDoc name phone items total ms)]).
Proof.
  destruct rq as [|q|idParam reqBody|reqBody|reqBody|]; cbn [serve].
  - intros [= H]. unfold getLessons in H.
    destruct (find _ _ _); injection H as <- <-; cbn; repeat split; auto;
      lia.
  - intros (Ho & Hn & Hl)%search_effect. rewrite Ho, Hn, Hl.
    repeat split; auto; lia.
  - intros (Ho & Hn & Hl)%put_effect. rewrite Ho, Hn, Hl.
    repeat split; auto; lia.
  - intros [= H]. pose proof (order_step l now reqBody w) as [Hl Ho].
    unfold post_orders in H. rewrite H in Hl, Ho. cbn [snd] in Hl, Ho.
    rewrite Hl. split; [done |].
    destruct Ho as [[-> ->] | (name & phone & items & total & T1 & T2
                                & T4 & -> & ->)].
    + split; [lia | by left].
    + split; [lia |]. right.
      by exists name, phone, items, total, now, (next_oid w).
  - intros [= H]. pose proof (order_step l now reqBody w) as [Hl Ho].
    unfold post_order in H. rewrite H in Hl, Ho. cbn [snd] in Hl, Ho.
    rewrite Hl. split; [done |].
    destruct Ho as [[-> ->] | (name & phone & items & total & T1 & T2
                                & T4 & -> & ->)].
    + split; [lia | by left].
    + split; [lia |]. right.
      by exists name, phone, items, total, now, (next_oid w).
  - intros [= H]. unfold getOrders in H.
    destruct (find _ _ _); injection H as <- <-; cbn; repeat split; auto;
      lia.
Qed.

(** X22. Through the routes of the server the orders are append-only and
    the lessons are neither created nor deleted: after any sequence of
    requests the earlier orders are still there, unchanged and in front,
    and the number of lessons is the same. *)
Theorem orders_append_only (rqs : list (link * Z * request))
    (w w' : world) :
  run rqs w = Some w' →
  orders w `prefix_of` orders w'
  ∧ length (lessons w') = length (lessons w).
Proof.
  revert w. induction rqs as [|[[l now] rq] rqs IH]; intros w;
    cbn [run].
  - by intros [= <-].
  - destruct (serve l now rq w) as [[r w1]|] eqn:E; [| done].
    intros H. apply IH in H as [Hp Hl].
    apply serve_step in E as (El & _ & Eo). split; [| congruence].
    destruct Eo as [Eo | (? & ? & ? & ? & ? & ? & _ & _ & _ & Eo)];
      rewrite Eo in Hp; [done |].
    etrans; [| exact Hp]. by apply prefix_app_r.
Qed.

Lemma orderDoc_well_formed (name phone items total : value) (now : Z)
    (oid : N) :
  truthy name = true → passable_phone phone →
  nonempty_array items = true →
  well_formed_order
    (<["_id" := SOid oid]> (orderDoc name phone items total now)).
Proof.
  intros T1 T2 T4. split.
  - unfold orderDoc, order_fields. rewrite !dom_insert_L, dom_empty_L.
    set_solver.
  - exists name, phone, items,
      (if truthy total then total else VNum (Fin 0 0)), now, oid.
    unfold orderDoc. repeat split; try done; try by simplify_map_eq.
    destruct (truthy total) eqn:E; auto.
Qed.

(** X23. Every order the server stores is well formed: if the orders
    collection holds only documents with exactly the six order fields, a
    truthy name, a phone that is a string of at least 8 digits or a
    non-zero number that renders as digits, a non-empty items array and a
    total that is truthy or the number 0, then so it does after any
    sequence of requests. *)
Theorem stored_orders_stay_well_formed (rqs : list (link * Z * request))
    (w w' : world) :
  Forall well_formed_order (orders w) →
  run rqs w = Some w' →
  Forall well_formed_order (orders w').
Proof.
  revert w. induction rqs as [|[[l now] rq] rqs IH]; intros w Hw;
    cbn [run].
  - by intros [= <-].
  - destruct (serve l now rq w) as [[r w1]|] eqn:E; [| done].
    apply IH. apply serve_step in E as (_ & _ & Eo).
    destruct Eo as [-> | (name & phone & items & total & ms & oid
                          & T1 & T2 & T4 & ->)]; [done |].
    apply Forall_app. split; [done |]. constructor; [| constructor].
    by apply orderDoc_well_formed.
Qed.

Lemma orders_append_only_witness :
  length (orders open_shop) = 1%nat
  ∧ length (orders after_sample_traffic) = 2%nat
  ∧ orders open_shop `prefix_of` orders after_sample_traffic
  ∧ length (lessons after_sample_traffic) = length (lessons open_shop).
Proof.
  split; [reflexivity |]. split; [reflexivity |].
  apply (orders_append_only sample_traffic open_shop after_sample_traffic).
  reflexivity.
Defined.

Lemma stored_orders_stay_well_formed_witness :
  Forall well_formed_order (orders after_sample_traffic)
  ∧ length (orders after_sample_traffic) = 2%nat.
Proof.
  split; [| reflexivity].
  apply (stored_orders_stay_well_formed sample_traffic open_shop
           after_sample_traffic); [| reflexivity].
  apply (stored_orders_stay_well_formed
           [(Up, 0, POST_orders (VObj (order_with_phone (VStr "02081234567"))))]
           seeded open_shop); [constructor | reflexivity].
Defined.

(** ** Integer phones *)

Lemma uint_string_digits (d : Decimal.uint) :
  forallb is_digit (list_ascii_of_string (NilEmpty.string_of_uint d)) = true.
Proof.
  induction d as [|d IH|d IH|d IH|d IH|d IH|d IH|d IH|d IH|d IH|d IH];
    [done | ..];
    cbn [NilEmpty.string_of_uint list_ascii_of_string forallb];
    by rewrite IH.
Qed.

Lemma uint_string_length (d : Decimal.uint) :
  String.length (NilEmpty.string_of_uint d) = Decimal.nb_digits d.
Proof.
  induction d as [|d IH|d IH|d IH|d IH|d IH|d IH|d IH|d IH|d IH|d IH];
    [done | ..]; cbn [NilEmpty.string_of_uint String.length Decimal.nb_digits];
    by rewrite IH.
Qed.

Lemma of_uint_acc_lower (d : Decimal.uint) (acc : positive) :
  Z.pos acc * 10 ^ Z.of_nat (Decimal.nb_digits d)
  ≤ Z.pos (Pos.of_uint_acc d acc).
Proof.
  revert acc.
  induction d as [|d IH|d IH|d IH|d IH|d IH|d IH|d IH|d IH|d IH|d IH];
    intros acc; cbn [Pos.of_uint_acc Decimal.nb_digits];
    [cbn; lia | ..];
    rewrite Nat2Z.inj_succ, Z.pow_succ_r by lia;
    (etrans; [| apply IH]);
    assert (0 < 10 ^ Z.of_nat (Decimal.nb_digits d))
      by (apply Z.pow_pos_nonneg; lia);
    nia.
Qed.

(** The decimal rendering of a positive integer has no leading zero, so a
    number of [k] digits is at least [10^(k-1)]. *)
Lemma digits_lower_bound (p : positive) :
  10 ^ (Z.of_nat (Decimal.nb_digits (Pos.to_uint p)) - 1) ≤ Z.pos p.
Proof.
  pose proof (DecimalPos.Unsigned.of_to p) as Hof.
  pose proof (DecimalPos.Unsigned.to_of (Pos.to_uint p)) as Hto.
  rewrite Hof in Hto. cbn [N.to_uint] in Hto.
  pose proof (DecimalPos.Unsigned.to_uint_nonnil p) as Hnil.
  pose proof (DecimalPos.Unsigned.to_uint_nonzero p) as Hzero.
  destruct (Pos.to_uint p) as [|d|d|d|d|d|d|d|d|d|d] eqn:E; [done | | ..].
  { exfalso. unfold Decimal.unorm in Hto. cbn [Decimal.nzhead] in Hto.
    pose proof (DecimalFacts.nb_digits_nzhead d) as Hnb.
    destruct (Decimal.nzhead d) eqn:En; try (by apply Hzero);
      rewrite <- Hto in Hnb; cbn [Decimal.nb_digits] in Hnb; lia. }
  all: cbn [Pos.of_uint] in Hof; injection Hof as <-;
    cbn [Decimal.nb_digits]; rewrite Nat2Z.inj_succ;
    replace (Z.succ (Z.of_nat (Decimal.nb_digits d)) - 1)
      with (Z.of_nat (Decimal.nb_digits d)) by lia;
    (etrans; [| apply of_uint_acc_lower]);
    assert (0 < 10 ^ Z.of_nat (Decimal.nb_digits d))
      by (apply Z.pow_pos_nonneg; lia);
    lia.
Qed.

Lemma digits_of_positive (s : Z) :
  0 < s →
  digits_of s ≠ EmptyString
  ∧ forallb is_digit (list_ascii_of_string (digits_of s)) = true
  ∧ 10 ^ (Z.of_nat (String.length (digits_of s)) - 1) ≤ s.
Proof.
  intros Hs. destruct s as [|p|p]; try lia. unfold digits_of.
  cbn [Z.to_N N.to_uint]. unfold NilZero.string_of_uint.
  pose proof (DecimalPos.Unsigned.to_uint_nonnil p) as Hnil.
  destruct (Pos.to_uint p) as [|d|d|d|d|d|d|d|d|d|d] eqn:E; [done | ..];
    rewrite <- E; (split; [by rewrite E |]);
    (split; [apply uint_string_digits |]);
    rewrite uint_string_length; apply digits_lower_bound.
Qed.

(** With enough fuel no trailing zero is left. *)
Lemma strip_zeros_done (fuel : nat) (m e s e' : Z) :
  0 < m → m < 2 ^ Z.of_nat fuel →
  strip_zeros fuel m e = (s, e') → 0 < s ∧ s mod 10 ≠ 0.
Proof.
  revert m e. induction fuel as [|fuel IH]; intros m e Hm Hlt.
  - cbn in Hlt. lia.
  - cbn [strip_zeros].
    destruct (m mod 10 =? 0) eqn:E; cbn [andb].
    + apply Z.eqb_eq in E.
      assert ((m =? 0) = false) as -> by (apply Z.eqb_neq; lia). cbn [negb].
      rewrite Nat2Z.inj_succ, Z.pow_succ_r in Hlt by lia.
      apply IH.
      * pose proof (Z.div_mod m 10). lia.
      * pose proof (Z.div_mod m 10). lia.
    + apply Z.eqb_neq in E. by intros [= <- <-].
Qed.

Lemma digits_app (a b : string) :
  forallb is_digit (list_ascii_of_string (a +:+ b))
  = forallb is_digit (list_ascii_of_string a)
    && forallb is_digit (list_ascii_of_string b).
Proof.
  induction a as [|c a IH]; [done |].
  rewrite append_cons. cbn [list_ascii_of_string forallb].
  by rewrite IH, andb_assoc.
Qed.

Lemma zeros_digits (n : nat) :
  forallb is_digit (list_ascii_of_string (zeros n)) = true.
Proof.
  induction n as [|n IH]; [done |].
  cbn [zeros list_ascii_of_string forallb]. by rewrite IH.
Qed.

(** A number equal to an integer between 1 and 2^53 renders as that
    integer's digits. *)
Lemma integer_rendering (m e z : Z) :
  0 < z ≤ 2 ^ 53 →
  num_eqb (Fin m e) (Fin z 0) = true →
  truthy (VNum (Fin m e)) = true
  ∧ digits_only_test (VNum (Fin m e)) = Done true.
Proof.
  intros [Hz0 Hz] He. cbn [num_eqb align] in He. apply Z.eqb_eq in He.
  assert (0 < 10 ^ (e - Z.min e 0)) as P1 by (apply Z.pow_pos_nonneg; lia).
  assert (0 < 10 ^ (0 - Z.min e 0)) as P2 by (apply Z.pow_pos_nonneg; lia).
  assert (0 < m) as Hm by nia.
  split.
  { cbn [truthy]. apply negb_true_iff, Z.eqb_neq. lia. }
  unfold digits_only_test, digits_only. cbn [ToString Number_toString].
  f_equal.
  assert ((m =? 0) = false) as -> by (apply Z.eqb_neq; lia).
  assert ((m <? 0) = false) as -> by (apply Z.ltb_ge; lia).
  unfold positive_toString.
  destruct (strip_zeros _ m e) as [s e'] eqn:Hs.
  pose proof (strip_zeros_value _ _ _ _ _ Hs) as [Hle Hval].
  apply strip_zeros_done in Hs as [Hs0 Hs10]; [| done |].
  2:{ rewrite Nat2Z.inj_succ, Z2Nat.id by apply Z.log2_nonneg.
      by apply Z.log2_spec. }
  assert (0 ≤ e') as He'.
  { destruct (decide (0 ≤ e')) as [|Hneg]; [done |]. exfalso. apply Hs10.
    rewrite Z.min_l in He by lia.
    rewrite Z.sub_diag, Z.pow_0_r, Z.mul_1_r in He.
    assert (s = z * 10 ^ (- e')) as ->.
    { assert (0 < 10 ^ (e' - e)) by (apply Z.pow_pos_nonneg; lia).
      apply (Z.mul_reg_r _ _ (10 ^ (e' - e))); [lia |].
      rewrite <- Hval, He, <- Z.mul_assoc, <- Z.pow_add_r by lia.
      repeat f_equal; lia. }
    replace (- e') with (Z.succ (- e' - 1)) by lia.
    rewrite Z.pow_succ_r by lia.
    replace (z * (10 * 10 ^ (- e' - 1))) with (z * 10 ^ (- e' - 1) * 10)
      by lia.
    apply Z.mod_mul. lia. }
  assert (z = s * 10 ^ e') as Hzv.
  { destruct (Z.min_spec e 0) as [[Hlt Hmin] | [Hge Hmin]];
      rewrite Hmin in He.
    - rewrite Z.sub_diag, Z.pow_0_r, Z.mul_1_r in He.
      assert (0 < 10 ^ (0 - e)) by (apply Z.pow_pos_nonneg; lia).
      apply (Z.mul_reg_r _ _ (10 ^ (0 - e))); [lia |].
      rewrite <- He, Hval, <- Z.mul_assoc, <- Z.pow_add_r by lia.
      repeat f_equal; lia.
    - rewrite Z.sub_0_r, Z.sub_diag, Z.pow_0_r, Z.mul_1_r in He.
      rewrite <- He, Hval, <- Z.mul_assoc, <- Z.pow_add_r by lia.
      repeat f_equal; lia. }
  destruct (digits_of_positive s Hs0) as (Hne & Hdig & Hlow).
  set (ds := digits_of s) in *.
  set (k := Z.of_nat (String.length ds)) in *.
  assert (1 ≤ k) as Hk.
  { subst k. destruct ds; [done |]. cbn [String.length]. lia. }
  assert (k + e' ≤ 21) as Hn.
  { assert (10 ^ (k - 1 + e') < 10 ^ 16) as Hpow.
    { rewrite Z.pow_add_r by lia.
      assert (0 < 10 ^ e') by (apply Z.pow_pos_nonneg; lia).
      assert (2 ^ 53 < 10 ^ 16) by done. nia. }
    apply Z.pow_lt_mono_r_iff in Hpow; lia. }
  assert ((k <=? k + e') && (k + e' <=? 21) = true) as ->.
  { apply andb_true_iff. split; apply Z.leb_le; lia. }
  rewrite digits_app, Hdig, zeros_digits. cbn [andb].
  rewrite andb_true_r. apply negb_true_iff, is_empty_false.
  destruct ds; [done |]. by rewrite append_cons.
Qed.

(** X24. A phone sent as a number equal to an integer between 1 and 2^53
    always passes, whatever the number of its digits: with a truthy name
    and a non-empty items array the request is answered 201 (the store
    call completing) and the number is stored as the phone. *)
Theorem integer_phone_is_accepted (now : Z) (m : gmap string value)
    (name items : value) (n : number) (z : Z) (w : world) :
  m !! "name" = Some name → truthy name = true →
  m !! "items" = Some items → nonempty_array items = true →
  m !! "phone" = Some (VNum n) →
  0 < z ≤ 2 ^ 53 → num_eqb n (Fin z 0) = true →
  let r := handleCreateOrder Up now (VObj m) w in
  status_of r.1 = Some 201%nat
  ∧ ∃ d, orders r.2 = orders w ++ [d]
         ∧ d !! "phone" = Some (SVal (VNum n)).
Proof.
  intros Hn Tn Hi Ti Hp Hz He r. subst r.
  destruct n as [| |x e]; try done.
  destruct (integer_rendering x e z Hz He) as [Tp Hd].
  rewrite (order_table _ _ _ _ _ _ _ _ (destructure_obj m)).
  rewrite Hn, Hp, Hi. cbn [from_option id]. rewrite Tn, Tp, Ti, Hd.
  cbn. split; [done |]. eexists. split; [done |].
  unfold orderDoc. by simplify_map_eq.
Qed.

Lemma integer_phone_is_accepted_witness :
  let r := handleCreateOrder Up 1700000000000
             (VObj (order_with_phone (VNum (Fin 7 0)))) seeded in
  status_of r.1 = Some 201%nat
  ∧ ∃ d, orders r.2 = orders seeded ++ [d]
         ∧ d !! "phone" = Some (SVal (VNum (Fin 7 0))).
Proof.
  apply (integer_phone_is_accepted 1700000000000
           (order_with_phone (VNum (Fin 7 0))) (VStr "Ada")
           (VArr [VObj (<["id" := int 1]> {["quantity" := int 2]})])
           (Fin 7 0) 7 seeded);
    [reflexivity | reflexivity | reflexivity | reflexivity | reflexivity
    | split; [lia | discriminate] | reflexivity].
Defined.
